(** * The admission-controlled gateway of the image service (server.py)

    A shallow embedding of [src/image-service/server.py]: the metrics
    object, the slot accounting around the asyncio semaphore, the
    [_run_processing] wrapper, the upload validation and the four endpoint
    closures, followed by an interleaving semantics of the requests served
    by one event loop and the properties the specification states about
    them. *)

From Stdlib Require Import ZArith QArith Lia.
From stdpp Require Import base option list gmap strings.

Local Open Scope Z_scope.

(** ** Exceptions and results *)

(** Exceptions, by the [except] clause of [_run_processing] that matches
    them: [TimeoutError] is [asyncio.TimeoutError], [Exception] any other
    subclass of [Exception] with its type name and message, and
    [CancelledError] derives from [BaseException] only, so no
    [except Exception] clause catches it.  The text of an [HTTPException]
    detail is an f-string; the values that are interpolated are kept, their
    rendering is not. *)
Inductive exn : Type :=
| HTTPException (status_code : Z) (d : detail)
| TimeoutError
| Exception (type_name message : string)
| CancelledError
with detail : Type :=
| LowDiskSpace (free_mb : Q) (min_mb : Z)
| ServerBusy (queued max_queue : Z)
| EmptyFile
| ImageTooLarge (len max_len : Z)
| InvalidImage (e : exn)
| ProcessingTimedOut (timeout : Z)
| ProcessingFailed (e : exn)
| OtherDetail (text : string).

Inductive res (A : Type) : Type :=
| Ok (a : A)
| Raise (e : exn).
Arguments Ok {A} a.
Arguments Raise {A} e.

(** What a call that runs in a worker thread does: it returns, raises, or
    never comes back. *)
Inductive outcome (A : Type) : Type :=
| Returns (a : A)
| Raises (e : exn)
| Hangs.
Arguments Returns {A} a.
Arguments Raises {A} e.
Arguments Hangs {A}.

Definition is_Exception (e : exn) : bool :=
  match e with
  | CancelledError => false
  | _ => true
  end.

Definition bytes : Type := list Byte.byte.

(** ** Metrics (server.py, lines 55-98)

    [to_dict] only rounds and packs the values below and is left out. *)

(** [deque(maxlen=1000)]: appending to a full deque drops the oldest
    sample.  Samples are differences of [time.time()] readings; a float is
    a rational, and the rounding of the subtraction is not modelled. *)
Definition maxlen : Z := 1000.

Definition deque_append (x : Q) (d : list Q) : list Q :=
  if Z.of_nat (length d) <? maxlen then d ++ [x] else tail d ++ [x].

Record Metrics : Type := mkMetrics {
  total_requests : Z;
  total_success : Z;
  total_errors : Z;
  total_timeouts : Z;
  total_rejected : Z;
  processing_times : list Q;
  stage_times : gmap string (list Q);
  current_processing : Z;
  current_queued : Z
}.

Definition Metrics_new : Metrics :=
  {| total_requests := 0; total_success := 0; total_errors := 0;
     total_timeouts := 0; total_rejected := 0;
     processing_times := [];
     stage_times :=
       <["bg_removal" := []]> (<["processing" := []]> (<["template" := []]> ∅));
     current_processing := 0; current_queued := 0 |}.

(** Python's [x / y] on numbers: a [ZeroDivisionError] when the divisor is
    zero, and otherwise a float, the exact quotient rounded to a double by
    [fl].  [fsum] is what the built-in [sum] gives for a sequence of
    floats.  (A quotient too large for a double is not considered.) *)
Definition ZeroDivisionError : exn :=
  Exception "ZeroDivisionError" "division by zero".

Definition truediv (fl : Q -> Q) (x y : Q) : res Q :=
  if Qeq_bool y 0 then Raise ZeroDivisionError else Ok (fl (x / y)%Q).

Definition lenQ (d : list Q) : Q := inject_Z (Z.of_nat (length d)).

(** Lines 71-72: [sum(d) / len(d) if d else 0]. *)
Definition avg_time (fsum : list Q -> Q) (fl : Q -> Q) (self : Metrics) :
    res Q :=
  match processing_times self with
  | [] => Ok 0%Q
  | d => truediv fl (fsum d) (lenQ d)
  end.

(** Lines 74-75. *)
Definition error_rate (fl : Q -> Q) (self : Metrics) : res Q :=
  if total_requests self =? 0 then Ok 0%Q
  else truediv fl (inject_Z (total_errors self))
         (inject_Z (total_requests self)).

(** Lines 77-79; [.get(stage, [])] gives the empty list for a stage that
    has no deque. *)
Definition avg_stage (fsum : list Q -> Q) (fl : Q -> Q) (self : Metrics)
    (stage : string) : res Q :=
  match default [] (stage_times self !! stage) with
  | [] => Ok 0%Q
  | d => truediv fl (fsum d) (lenQ d)
  end.

(** ** The module globals *)

(** [metrics], the value of [_semaphore] (the free permits of the
    [asyncio.Semaphore]) and whether [_shutdown_event] is set.  Requests are
    served between the two halves of [lifespan], when both globals are
    set. *)
Record State : Type := mkState {
  metrics : Metrics;
  _semaphore : Z;
  _shutdown_event : bool
}.

Definition with_metrics (f : Metrics -> Metrics) (s : State) : State :=
  {| metrics := f (metrics s); _semaphore := _semaphore s;
     _shutdown_event := _shutdown_event s |}.

Definition incr_total_requests (m : Metrics) : Metrics :=
  {| total_requests := total_requests m + 1; total_success := total_success m;
     total_errors := total_errors m; total_timeouts := total_timeouts m;
     total_rejected := total_rejected m;
     processing_times := processing_times m; stage_times := stage_times m;
     current_processing := current_processing m;
     current_queued := current_queued m |}.

Definition incr_total_success (m : Metrics) : Metrics :=
  {| total_requests := total_requests m; total_success := total_success m + 1;
     total_errors := total_errors m; total_timeouts := total_timeouts m;
     total_rejected := total_rejected m;
     processing_times := processing_times m; stage_times := stage_times m;
     current_processing := current_processing m;
     current_queued := current_queued m |}.

Definition incr_total_errors (m : Metrics) : Metrics :=
  {| total_requests := total_requests m; total_success := total_success m;
     total_errors := total_errors m + 1; total_timeouts := total_timeouts m;
     total_rejected := total_rejected m;
     processing_times := processing_times m; stage_times := stage_times m;
     current_processing := current_processing m;
     current_queued := current_queued m |}.

Definition incr_total_timeouts (m : Metrics) : Metrics :=
  {| total_requests := total_requests m; total_success := total_success m;
     total_errors := total_errors m; total_timeouts := total_timeouts m + 1;
     total_rejected := total_rejected m;
     processing_times := processing_times m; stage_times := stage_times m;
     current_processing := current_processing m;
     current_queued := current_queued m |}.

Definition incr_total_rejected (m : Metrics) : Metrics :=
  {| total_requests := total_requests m; total_success := total_success m;
     total_errors := total_errors m; total_timeouts := total_timeouts m;
     total_rejected := total_rejected m + 1;
     processing_times := processing_times m; stage_times := stage_times m;
     current_processing := current_processing m;
     current_queued := current_queued m |}.

Definition add_current_processing (n : Z) (m : Metrics) : Metrics :=
  {| total_requests := total_requests m; total_success := total_success m;
     total_errors := total_errors m; total_timeouts := total_timeouts m;
     total_rejected := total_rejected m;
     processing_times := processing_times m; stage_times := stage_times m;
     current_processing := current_processing m + n;
     current_queued := current_queued m |}.

Definition add_current_queued (n : Z) (m : Metrics) : Metrics :=
  {| total_requests := total_requests m; total_success := total_success m;
     total_errors := total_errors m; total_timeouts := total_timeouts m;
     total_rejected := total_rejected m;
     processing_times := processing_times m; stage_times := stage_times m;
     current_processing := current_processing m;
     current_queued := current_queued m + n |}.

Definition set_processing_times (d : list Q) (m : Metrics) : Metrics :=
  {| total_requests := total_requests m; total_success := total_success m;
     total_errors := total_errors m; total_timeouts := total_timeouts m;
     total_rejected := total_rejected m;
     processing_times := d; stage_times := stage_times m;
     current_processing := current_processing m;
     current_queued := current_queued m |}.

Definition set_stage_times (t : gmap string (list Q)) (m : Metrics) : Metrics :=
  {| total_requests := total_requests m; total_success := total_success m;
     total_errors := total_errors m; total_timeouts := total_timeouts m;
     total_rejected := total_rejected m;
     processing_times := processing_times m; stage_times := t;
     current_processing := current_processing m;
     current_queued := current_queued m |}.

Definition add_semaphore (n : Z) (s : State) : State :=
  {| metrics := metrics s; _semaphore := _semaphore s + n;
     _shutdown_event := _shutdown_event s |}.

Definition set_shutdown_event (s : State) : State :=
  {| metrics := metrics s; _semaphore := _semaphore s;
     _shutdown_event := true |}.

(** ** Coroutines and worker threads *)

(** A call handed to the executor runs in a worker thread against the
    shared [metrics]; it is taken as one atomic block (the closures below
    only append to the timing deques, which the event loop never writes). *)
Definition Job : Type := State -> State * outcome bytes.

(** An [async def] runs without interruption up to its next [await].
    [Done] is a return or a raise, [Acquire] is
    [await _semaphore.acquire()], [Execute] is
    [await asyncio.wait_for(loop.run_in_executor(...), timeout)]; both carry
    the globals as the coroutine left them, and a continuation that receives
    the result of the await and the globals as they are when it resumes. *)
Inductive Coro (A : Type) : Type :=
| Done (s : State) (r : res A)
| Acquire (s : State) (k : res unit -> State -> Coro A)
| Execute (s : State) (j : Job) (k : res bytes -> State -> Coro A).
Arguments Done {A} s r.
Arguments Acquire {A} s k.
Arguments Execute {A} s j k.

Definition C (A : Type) : Type := State -> Coro A.

Fixpoint bindC {A B : Type} (c : Coro A) (f : A -> C B) : Coro B :=
  match c with
  | Done s (Ok a) => f a s
  | Done s (Raise e) => Done s (Raise e)
  | Acquire s k => Acquire s (fun r s' => bindC (k r s') f)
  | Execute s j k => Execute s j (fun r s' => bindC (k r s') f)
  end.

Fixpoint catchC {A : Type} (c : Coro A) (handler : exn -> C A) : Coro A :=
  match c with
  | Done s (Ok a) => Done s (Ok a)
  | Done s (Raise e) => handler e s
  | Acquire s k => Acquire s (fun r s' => catchC (k r s') handler)
  | Execute s j k => Execute s j (fun r s' => catchC (k r s') handler)
  end.

Fixpoint finallyC {A : Type} (c : Coro A) (final : C unit) : Coro A :=
  match c with
  | Done s r => bindC (final s) (fun _ s' => Done s' r)
  | Acquire s k => Acquire s (fun r s' => finallyC (k r s') final)
  | Execute s j k => Execute s j (fun r s' => finallyC (k r s') final)
  end.

Definition ret {A : Type} (a : A) : C A := fun s => Done s (Ok a).
Definition raise {A : Type} (e : exn) : C A := fun s => Done s (Raise e).
Definition bind {A B : Type} (m : C A) (f : A -> C B) : C B :=
  fun s => bindC (m s) f.
Definition try_except {A : Type} (body : C A) (handler : exn -> C A) : C A :=
  fun s => catchC (body s) handler.
Definition try_finally {A : Type} (body : C A) (final : C unit) : C A :=
  fun s => finallyC (body s) final.
Definition get {A : Type} (f : State -> A) : C A := fun s => Done s (Ok (f s)).
Definition modify (f : State -> State) : C unit := fun s => Done (f s) (Ok tt).
Definition lift {A : Type} (r : res A) : C A := fun s => Done s r.

Definition semaphore_acquire : C unit :=
  fun s => Acquire s (fun r s' => Done s' r).
Definition wait_for_executor (func : Job) : C bytes :=
  fun s => Execute s func (fun r s' => Done s' r).

Declare Scope coro_scope.
Delimit Scope coro_scope with C.
Notation "x <- m ;; k" := (bind m (fun x => k))
  (at level 100, m at next level, right associativity) : coro_scope.
Notation "m ;; k" := (bind m (fun _ => k))
  (at level 100, right associativity) : coro_scope.

(** The worker-thread side: the same state passing, without awaits. *)
Definition T (A : Type) : Type := State -> State * outcome A.

Definition retT {A : Type} (a : A) : T A := fun s => (s, Returns a).
Definition call {A : Type} (o : outcome A) : T A := fun s => (s, o).
Definition bindT {A B : Type} (m : T A) (f : A -> T B) : T B :=
  fun s =>
    match m s with
    | (s', Returns a) => f a s'
    | (s', Raises e) => (s', Raises e)
    | (s', Hangs) => (s', Hangs)
    end.

Declare Scope thread_scope.
Delimit Scope thread_scope with T.
Notation "x <- m ;; k" := (bindT m (fun x => k))
  (at level 100, m at next level, right associativity) : thread_scope.
Notation "m ;; k" := (bindT m (fun _ => k))
  (at level 100, right associativity) : thread_scope.

(** [metrics.stage_times[stage].append(x)] and
    [metrics.processing_times.append(x)]. *)
Definition stage_times_append (stage : string) (x : Q) : T unit :=
  fun s =>
    match stage_times (metrics s) !! stage with
    | Some d =>
        (with_metrics
           (set_stage_times (<[stage := deque_append x d]> (stage_times (metrics s)))) s,
         Returns tt)
    | None => (s, Raises (Exception "KeyError" stage))
    end.

Definition processing_times_append (x : Q) : T unit :=
  fun s =>
    (with_metrics
       (fun m => set_processing_times (deque_append x (processing_times m)) m) s,
     Returns tt).

(** [x < y] on rationals. *)
Definition Qltb (x y : Q) : bool := negb (Qle_bool y x).

Record Response : Type := mkResponse {
  content : bytes;
  media_type : string
}.

(** ** A sample deployment

    The default configuration and stand-ins for the collaborators, to run
    the definitions on: the decoder refuses data that starts with a zero
    byte; background removal fails on a first byte [0xff], hangs on [0xfe],
    raises an [HTTPException] on [0xfd]; [process_image] fails on a
    background colour that is not hexadecimal. *)
Module Demo.

Definition MAX_CONCURRENT : Z := 2.
Definition MAX_QUEUE_SIZE : Z := 20.
Definition REQUEST_TIMEOUT : Z := 120.
Definition MAX_IMAGE_SIZE : Z := 50 * 1024 * 1024.
Definition MIN_DISK_MB : Z := 500.

Definition Image : Type := bytes.

Definition Image_open_verified (data : bytes) : res Image :=
  match data with
  | Byte.x00 :: _ =>
      Raise (Exception "UnidentifiedImageError" "cannot identify image file")
  | _ => Ok data
  end.

Definition Image_save_png (img : Image) : outcome bytes := Returns img.

Definition remove_background (data : bytes) : outcome bytes :=
  match data with
  | Byte.xff :: _ => Raises (Exception "RuntimeError" "inference failed")
  | Byte.xfe :: _ => Hangs
  | Byte.xfd :: _ => Raises (HTTPException 418 (OtherDetail "teapot"))
  | _ => Returns data
  end.

Definition remove_background_pil (image : Image) : outcome Image :=
  remove_background image.

Definition process_image (foreground : Image) (background_color : string)
    (padding : Q) (shadow : bool) (output_size : Z * Z) : outcome Image :=
  if String.eqb background_color "ZZZZZZ"
  then Raises (Exception "ValueError" "invalid literal for int() with base 16")
  else Returns foreground.

Definition render_template (image : Image) (text : string)
    (bar_height font_size : Z) : outcome Image :=
  Returns image.

Definition png : bytes := [Byte.x89; Byte.x50; Byte.x4e; Byte.x47].
Definition corrupt : bytes := [Byte.x00; Byte.x01].
Definition failing : bytes := [Byte.xff; Byte.x50].
Definition hanging : bytes := [Byte.xfe; Byte.x50].

(** Ten gigabytes free, or a hundred megabytes. *)
Definition disk_ok : res Z := Ok (10 * 1024 * 1024 * 1024).
Definition disk_low : Z := 100 * 1024 * 1024.

(** A clock that advances a quarter of a second between readings. *)
Definition clock (n : nat) : Q := (Z.of_nat n # 4)%Q.

(** The globals right after start-up, after the shutdown signal, and with
    both permits taken and the queue full. *)
Definition running : State :=
  {| metrics := Metrics_new; _semaphore := 2; _shutdown_event := false |}.

Definition draining : State :=
  {| metrics := Metrics_new; _semaphore := 2; _shutdown_event := true |}.

Definition busy : State :=
  {| metrics :=
       {| total_requests := 22; total_success := 0; total_errors := 0;
          total_timeouts := 0; total_rejected := 0;
          processing_times := []; stage_times := stage_times Metrics_new;
          current_processing := 2; current_queued := 20 |};
     _semaphore := 0; _shutdown_event := false |}.

(** Both permits taken and nobody waiting; then, with our caller queued,
    one of the two executions has ended. *)
Definition saturated : State :=
  {| metrics :=
       {| total_requests := 2; total_success := 0; total_errors := 0;
          total_timeouts := 0; total_rejected := 0;
          processing_times := []; stage_times := stage_times Metrics_new;
          current_processing := 2; current_queued := 0 |};
     _semaphore := 0; _shutdown_event := false |}.

Definition one_freed : State :=
  {| metrics :=
       {| total_requests := 3; total_success := 1; total_errors := 0;
          total_timeouts := 0; total_rejected := 0;
          processing_times := []; stage_times := stage_times Metrics_new;
          current_processing := 1; current_queued := 1 |};
     _semaphore := 1; _shutdown_event := false |}.

Definition some_errors : Metrics :=
  {| total_requests := 4; total_success := 3; total_errors := 1;
     total_timeouts := 0; total_rejected := 0;
     processing_times := []; stage_times := stage_times Metrics_new;
     current_processing := 0; current_queued := 0 |}.

End Demo.

(** A second set of stand-ins, whose background removal fails only with
    an ordinary exception. *)
Module Steady.

Definition remove_background (data : bytes) : outcome bytes :=
  match data with
  | Byte.xff :: _ => Raises (Exception "RuntimeError" "inference failed")
  | Byte.xfe :: _ => Hangs
  | _ => Returns data
  end.

Definition remove_background_pil (image : Demo.Image) : outcome Demo.Image :=
  remove_background image.

End Steady.

(** ** The modules around the server *)

(** *** logger.py

    [_request_id] is the attribute [value] of the thread-local object, for
    the thread that runs: [None] until [set_request_id] is called there. *)
Module logger.


Definition get_request_id (_request_id : option string) : string :=
  default "-" _request_id.

(** The levels of the four logging methods, and their names in [logging]. *)
Inductive level : Type := DEBUG | INFO | WARNING | ERROR.

Definition getLevelName (l : level) : string :=
  match l with
  | DEBUG => "DEBUG" | INFO => "INFO" | WARNING => "WARNING" | ERROR => "ERROR"
  end.

(** [str.lower()], on ASCII letters. *)
Definition lower_ascii (c : Ascii.ascii) : Ascii.ascii :=
  let n := Ascii.nat_of_ascii c in
  if ((65 <=? n) && (n <=? 90))%nat then Ascii.ascii_of_nat (n + 32) else c.

Fixpoint lower (s : string) : string :=
  match s with
  | EmptyString => EmptyString
  | String c rest => String (lower_ascii c) (lower rest)
  end.

(** What [format] reads of a [LogRecord]: [exc_text] is the formatted
    exception when [exc_info] is set and its first component is not
    [None]; [_extra] is [None] when the attribute is missing. *)
Record LogRecord (V : Type) : Type := {
  created : Q;
  levelname : string;
  name : string;
  getMessage : string;
  _extra : option (gmap string V);
  exc_text : option string
}.
Arguments created {V}.
Arguments levelname {V}.
Arguments name {V}.
Arguments getMessage {V}.
Arguments _extra {V}.
Arguments exc_text {V}.

(** [JSONFormatter.format] (lines 21-34), up to the dict it hands to
    [json.dumps]; [of_str] makes a JSON value of a string, [strftime]
    formats the time of creation. *)
Definition format {V : Type} (of_str : string -> V) (strftime : Q -> string)
    (_request_id : option string) (record : LogRecord V) : gmap string V :=
  let entry : gmap string V :=
    <["request_id" := of_str (get_request_id _request_id)]>
      (<["msg" := of_str (getMessage record)]>
         (<["logger" := of_str (name record)]>
            (<["level" := of_str (lower (levelname record))]>
               (<["ts" := of_str (strftime (created record))]> ∅)))) in
  let entry :=
    map_fold (fun k v entry => <[k := v]> entry) entry
      (default ∅ (_extra record)) in
  match exc_text record with
  | Some text => <["exception" := of_str text]> entry
  | None => entry
  end.

(** A call that passes as a keyword the name of a parameter that is
    already bound positionally fails with [TypeError] before the body
    runs: [bind_kwargs params kwargs] is the binding of [**kwargs] next to
    the positional parameters [params]. *)
Definition TypeError (param : string) : exn :=
  Exception "TypeError" ("got multiple values for argument " +:+ param).

Definition bind_kwargs {V : Type} (params : list string)
    (kwargs : gmap string V) : res unit :=
  match List.find (fun p => bool_decide (is_Some (kwargs !! p))) params with
  | Some p => Raise (TypeError p)
  | None => Ok tt
  end.

(** [StructuredLogger._log(self, level, msg, **kwargs)] (lines 47-52) on
    the logger that [__init__] set up: the record made by [makeRecord]
    with no arguments and no exception, and the dict its one handler
    formats. *)
Definition makeRecord {V : Type} (logger_name : string) (now : Q) (l : level)
    (msg : string) : LogRecord V :=
  {| created := now; levelname := getLevelName l; name := logger_name;
     getMessage := msg; _extra := None; exc_text := None |}.

Definition _log {V : Type} (of_str : string -> V) (strftime : Q -> string)
    (logger_name : string) (now : Q) (_request_id : option string)
    (l : level) (msg : string) (kwargs : gmap string V) :
    res (gmap string V) :=
  match bind_kwargs ["self"; "level"; "msg"] kwargs with
  | Raise e => Raise e
  | Ok _ =>
      let record : LogRecord V := makeRecord logger_name now l msg in
      let record :=
        {| created := created record; levelname := levelname record;
           name := name record; getMessage := getMessage record;
           _extra := Some kwargs; exc_text := exc_text record |} in
      Ok (format of_str strftime _request_id record)
  end.

(** [info], [warning], [error] and [debug] (lines 54-57), each
    [def m(self, msg, **kw): self._log(LEVEL, msg, **kw)]. *)
Definition log_method {V : Type} (of_str : string -> V)
    (strftime : Q -> string) (logger_name : string) (now : Q)
    (_request_id : option string) (l : level) (msg : string)
    (kw : gmap string V) : res (gmap string V) :=
  match bind_kwargs ["self"; "msg"] kw with
  | Raise e => Raise e
  | Ok _ => _log of_str strftime logger_name now _request_id l msg kw
  end.

Definition warning {V : Type} (of_str : string -> V) strftime logger_name now
    _request_id :=
  log_method of_str strftime logger_name now _request_id WARNING.
Definition error {V : Type} (of_str : string -> V) strftime logger_name now
    _request_id :=
  log_method of_str strftime logger_name now _request_id ERROR.
Definition debug {V : Type} (of_str : string -> V) strftime logger_name now
    _request_id :=
  log_method of_str strftime logger_name now _request_id DEBUG.


End logger.

(** *** bg_removal.py: the model session

    [_session] is the module global; [model_cached] tells whether the
    model file exists.  What the file system, the download and the runtime
    answer is given with each call. *)
Module bg_removal.

Record State (Session : Type) : Type := {
  _session : option Session;
  model_cached : bool
}.
Arguments _session {Session}.
Arguments model_cached {Session}.

(** [os.path.join(MODEL_DIR, "u2net.onnx")], for a directory name that
    does not end in a slash. *)
Definition model_path (MODEL_DIR : string) : string :=
  MODEL_DIR +:+ "/u2net.onnx".

(** Lines 17-25; a download that succeeds leaves the file in place. *)
Definition _get_model_path {Session : Type} (MODEL_DIR : string)
    (makedirs retrieve : res unit) (s : State Session) :
    State Session * res string :=
  let path := model_path MODEL_DIR in
  if model_cached s then (s, Ok path)
  else
    match makedirs with
    | Raise e => (s, Raise e)
    | Ok _ =>
        match retrieve with
        | Raise e => (s, Raise e)
        | Ok _ => ({| _session := _session s; model_cached := true |}, Ok path)
        end
    end.

(** Lines 28-33. *)
Definition _get_session {Session : Type} (MODEL_DIR : string)
    (makedirs retrieve : res unit)
    (InferenceSession : string -> res Session) (s : State Session) :
    State Session * res Session :=
  match _session s with
  | Some session => (s, Ok session)
  | None =>
      match _get_model_path MODEL_DIR makedirs retrieve s with
      | (s1, Raise e) => (s1, Raise e)
      | (s1, Ok path) =>
          match InferenceSession path with
          | Raise e => (s1, Raise e)
          | Ok session =>
              ({| _session := Some session; model_cached := model_cached s1 |},
               Ok session)
          end
      end
  end.

End bg_removal.

(** *** image_processor.py and template_renderer.py: where things go *)
Module image_processor.

(** Lines 60-61 of [process_image]; [//] rounds down. *)
Definition paste_x (target_w fg_width : Z) : Z := (target_w - fg_width) / 2.
Definition paste_y (target_h fg_height : Z) : Z := (target_h - fg_height) / 2.

End image_processor.

Module template_renderer.

Definition font_paths : list string :=
  ["/System/Library/Fonts/Helvetica.ttc";
   "/System/Library/Fonts/SFNSText.ttf";
   "/System/Library/Fonts/SFCompact.ttf";
   "/usr/share/fonts/truetype/dejavu/DejaVuSans.ttf";
   "/usr/share/fonts/TTF/DejaVuSans.ttf"].

(** The loop of [_get_font] (lines 16-22) from some point of the list on. *)
Fixpoint _get_font_from {Font : Type} (path_exists : string -> bool)
    (truetype : string -> Z -> res Font) (load_default : res Font)
    (size : Z) (paths : list string) : res Font :=
  match paths with
  | [] => load_default
  | fp :: rest =>
      if path_exists fp then
        match truetype fp size with
        | Ok font => Ok font
        | Raise e =>
            if is_Exception e
            then _get_font_from path_exists truetype load_default size rest
            else Raise e
        end
      else _get_font_from path_exists truetype load_default size rest
  end.

Definition _get_font {Font : Type} (path_exists : string -> bool)
    (truetype : string -> Z -> res Font) (load_default : res Font)
    (size : Z) : res Font :=
  _get_font_from path_exists truetype load_default size font_paths.

(** Lines 44 and 48-53 of [render_template], for an image [w] by [h]:
    the top of the bar; the size of the text, from the box
    [(x0, y0, x1, y1)] that [textbbox((0, 0), text)] measured around the
    ink of the text drawn at the origin; and the origin it is drawn at. *)
Definition bar_top (h bar_height : Z) : Z := h - bar_height.

Definition text_w (bbox : Z * Z * Z * Z) : Z :=
  let '(x0, _, x1, _) := bbox in x1 - x0.
Definition text_h (bbox : Z * Z * Z * Z) : Z :=
  let '(_, y0, _, y1) := bbox in y1 - y0.

Definition text_x (w text_w : Z) : Z := (w - text_w) / 2.
Definition text_y (h bar_height text_h : Z) : Z :=
  h - bar_height + (bar_height - text_h) / 2.

(** Where [draw.text((text_x, text_y), text)] puts the ink: the measured
    box, moved from the origin to the drawing origin. *)
Definition ink_box (w h bar_height : Z) (bbox : Z * Z * Z * Z) :
    Z * Z * Z * Z :=
  let '(x0, y0, x1, y1) := bbox in
  let tx := text_x w (text_w bbox) in
  let ty := text_y h bar_height (text_h bbox) in
  (tx + x0, ty + y0, tx + x1, ty + y1).

End template_renderer.

(** ** The service *)

Section Service.

(** The configuration read from the environment at import time
    (lines 40-45), and the collaborators the service calls through: PIL's
    decoder and encoder and the three pipeline stages. *)
Variables MAX_CONCURRENT MAX_QUEUE_SIZE REQUEST_TIMEOUT : Z.
Variables MAX_IMAGE_SIZE MIN_DISK_MB : Z.
Variable Image : Type.
Variable Image_open_verified : bytes -> res Image.
Variable Image_save_png : Image -> outcome bytes.
Variable remove_background : bytes -> outcome bytes.
Variable remove_background_pil : Image -> outcome Image.
Variable process_image : Image -> string -> Q -> bool -> Z * Z -> outcome Image.
Variable render_template : Image -> string -> Z -> Z -> outcome Image.

(** [asyncio.Semaphore(value)] raises [ValueError] on a negative value. *)
Definition Semaphore (value : Z) : res Z :=
  if value <? 0 then Raise (Exception "ValueError" "Semaphore initial value must be >= 0")
  else Ok value.

(** The first half of [lifespan] (lines 144-146), on the module's initial
    [metrics = Metrics()]. *)
Definition lifespan : res State :=
  match Semaphore MAX_CONCURRENT with
  | Ok value =>
      Ok {| metrics := Metrics_new; _semaphore := value; _shutdown_event := false |}
  | Raise e => Raise e
  end.

(** Lines 161-163. *)
Definition _handle_shutdown (s : State) : State := set_shutdown_event s.

(** The ["status"] field of [/health] (line 281), the one place that
    reads [_shutdown_event]. *)
Definition health_status (s : State) : string :=
  if negb (_shutdown_event s) then "ok" else "shutting_down".

(** Lines 108-118; [disk_usage] is what [psutil.disk_usage("/").free]
    gives, or the exception it raises.  [free_mb] is the exact quotient,
    which is the float of the code as long as less than 2^53 bytes are
    free. *)
Definition _check_disk_space (disk_usage : res Z) : C unit :=
  try_except
    (free <- lift disk_usage ;;
     let free_mb := (inject_Z free / inject_Z (1024 * 1024))%Q in
     if Qltb free_mb (inject_Z MIN_DISK_MB)
     then raise (HTTPException 503 (LowDiskSpace free_mb MIN_DISK_MB))
     else ret tt)%C
    (fun e =>
       match e with
       | HTTPException _ _ => raise e
       | TimeoutError | Exception _ _ => ret tt
       | CancelledError => raise e
       end).

(** Lines 121-131. *)
Definition _acquire_slot : C unit :=
  (queued <- get (fun s => current_queued (metrics s)) ;;
   if queued >=? MAX_QUEUE_SIZE then
     modify (with_metrics incr_total_rejected) ;;
     raise (HTTPException 503 (ServerBusy queued MAX_QUEUE_SIZE))
   else
     modify (with_metrics (add_current_queued 1)) ;;
     try_finally semaphore_acquire
       (modify (with_metrics (add_current_queued (-1)))) ;;
     modify (with_metrics (add_current_processing 1)))%C.

(** Lines 134-136; [release()] gives the permit back. *)
Definition _release_slot : C unit :=
  (modify (with_metrics (add_current_processing (-1))) ;;
   modify (add_semaphore 1))%C.

(** [gc.collect()] touches none of the globals. *)
Definition gc_collect : C unit := ret tt.

(** Lines 213-227, from the bytes that [await upload.read()] returned. *)
Definition _read_image (data : bytes) : C (bytes * Image) :=
  let len := Z.of_nat (length data) in
  if len =? 0 then raise (HTTPException 400 EmptyFile)
  else if len >? MAX_IMAGE_SIZE then
    raise (HTTPException 413 (ImageTooLarge len MAX_IMAGE_SIZE))
  else
    (img <- try_except (lift (Image_open_verified data))
              (fun e =>
                 if is_Exception e
                 then raise (HTTPException 400 (InvalidImage e))
                 else raise e) ;;
     ret (data, img))%C.

(** Lines 230-235. *)
Definition _to_png_bytes (img : Image) : T bytes := call (Image_save_png img).

(** Lines 241-268.  The calls to [log] write to the log only. *)
Definition _run_processing (disk_usage : res Z) (func : Job) : C bytes :=
  (_check_disk_space disk_usage ;;
   modify (with_metrics incr_total_requests) ;;
   _acquire_slot ;;
   try_finally
     (try_except
        (result <- wait_for_executor func ;;
         modify (with_metrics incr_total_success) ;;
         ret result)
        (fun e =>
           match e with
           | TimeoutError =>
               modify (with_metrics incr_total_timeouts) ;;
               modify (with_metrics incr_total_errors) ;;
               raise (HTTPException 504 (ProcessingTimedOut REQUEST_TIMEOUT))
           | HTTPException _ _ =>
               modify (with_metrics incr_total_errors) ;;
               raise e
           | Exception _ _ =>
               modify (with_metrics incr_total_errors) ;;
               raise (HTTPException 500 (ProcessingFailed e))
           | CancelledError => raise e
           end))
     (_release_slot ;; gc_collect))%C.

(** *** The endpoints (lines 308-408)

    [time] gives the successive readings of [time.time()] inside a
    closure. *)

Definition remove_bg_do (data : bytes) (time : nat -> Q) : Job :=
  (let t0 := time 0%nat in
   result <- call (remove_background data) ;;
   stage_times_append "bg_removal" (time 1%nat - t0)%Q ;;
   processing_times_append (time 2%nat - t0)%Q ;;
   retT result)%T.

Definition remove_bg_endpoint (image : bytes) (disk_usage : res Z)
    (time : nat -> Q) : C Response :=
  (p <- _read_image image ;;
   result <- _run_processing disk_usage (remove_bg_do (fst p) time) ;;
   ret {| content := result; media_type := "image/png" |})%C.

Definition process_do (pil_img : Image) (background : string) (padding : Q)
    (shadow : bool) (width height : Z) (time : nat -> Q) : Job :=
  (let t0 := time 0%nat in
   fg <- call (remove_background_pil pil_img) ;;
   let t1 := time 1%nat in
   stage_times_append "bg_removal" (t1 - t0)%Q ;;
   result <- call (process_image fg background padding shadow (width, height)) ;;
   let t2 := time 2%nat in
   stage_times_append "processing" (t2 - t1)%Q ;;
   processing_times_append (t2 - t0)%Q ;;
   _to_png_bytes result)%T.

Definition process_endpoint (image : bytes) (background : string) (padding : Q)
    (shadow : bool) (width height : Z) (disk_usage : res Z)
    (time : nat -> Q) : C Response :=
  (p <- _read_image image ;;
   result <- _run_processing disk_usage
               (process_do (snd p) background padding shadow width height time) ;;
   ret {| content := result; media_type := "image/png" |})%C.

Definition render_template_do (pil_img : Image) (text : string)
    (bar_height font_size : Z) (time : nat -> Q) : Job :=
  (let t0 := time 0%nat in
   result <- call (render_template pil_img text bar_height font_size) ;;
   stage_times_append "template" (time 1%nat - t0)%Q ;;
   processing_times_append (time 2%nat - t0)%Q ;;
   _to_png_bytes result)%T.

Definition render_template_endpoint (image : bytes) (text : string)
    (bar_height font_size : Z) (disk_usage : res Z)
    (time : nat -> Q) : C Response :=
  (p <- _read_image image ;;
   result <- _run_processing disk_usage
               (render_template_do (snd p) text bar_height font_size time) ;;
   ret {| content := result; media_type := "image/png" |})%C.

Definition process_full_do (pil_img : Image) (background : string)
    (padding : Q) (shadow : bool) (width height : Z) (template_text : string)
    (bar_height font_size : Z) (time : nat -> Q) : Job :=
  (let t0 := time 0%nat in
   fg <- call (remove_background_pil pil_img) ;;
   let t1 := time 1%nat in
   stage_times_append "bg_removal" (t1 - t0)%Q ;;
   processed <- call (process_image fg background padding shadow (width, height)) ;;
   let t2 := time 2%nat in
   stage_times_append "processing" (t2 - t1)%Q ;;
   result <- call (render_template processed template_text bar_height font_size) ;;
   let t3 := time 3%nat in
   stage_times_append "template" (t3 - t2)%Q ;;
   processing_times_append (t3 - t0)%Q ;;
   _to_png_bytes result)%T.

Definition process_full_endpoint (image : bytes) (background : string)
    (padding : Q) (shadow : bool) (width height : Z) (template_text : string)
    (bar_height font_size : Z) (disk_usage : res Z)
    (time : nat -> Q) : C Response :=
  (p <- _read_image image ;;
   result <- _run_processing disk_usage
               (process_full_do (snd p) background padding shadow width height
                  template_text bar_height font_size time) ;;
   ret {| content := result; media_type := "image/png" |})%C.

(** *** The requests served by one event loop *)

(** A request: the endpoint, the upload and the form fields, and what the
    environment answers while it is served (the disk probe and the clock). *)
Inductive Request : Type :=
| RemoveBackground (image : bytes) (disk_usage : res Z) (time : nat -> Q)
| Process (image : bytes) (background : string) (padding : Q) (shadow : bool)
    (width height : Z) (disk_usage : res Z) (time : nat -> Q)
| RenderTemplate (image : bytes) (text : string) (bar_height font_size : Z)
    (disk_usage : res Z) (time : nat -> Q)
| ProcessFull (image : bytes) (background : string) (padding : Q)
    (shadow : bool) (width height : Z) (template_text : string)
    (bar_height font_size : Z) (disk_usage : res Z) (time : nat -> Q).

Definition handler (req : Request) : C Response :=
  match req with
  | RemoveBackground image disk_usage time =>
      remove_bg_endpoint image disk_usage time
  | Process image background padding shadow width height disk_usage time =>
      process_endpoint image background padding shadow width height
        disk_usage time
  | RenderTemplate image text bar_height font_size disk_usage time =>
      render_template_endpoint image text bar_height font_size disk_usage time
  | ProcessFull image background padding shadow width height template_text
      bar_height font_size disk_usage time =>
      process_full_endpoint image background padding shadow width height
        template_text bar_height font_size disk_usage time
  end.

(** A request between two runs on the event loop: parked on the
    semaphore, handed a permit by [release()] but not resumed yet (Python
    3.11 and later take the permit on the waiter's behalf; earlier versions
    let the waiter take it when it resumes, which is a wake-up followed at
    once by the resumption), waiting for its job, or answered. *)
Inductive Task : Type :=
| Waiting (k : res unit -> State -> Coro Response)
| Woken (k : res unit -> State -> Coro Response)
| Running (j : Job) (k : res bytes -> State -> Coro Response)
| Finished (r : res Response).

(** [background] holds the jobs whose caller stopped waiting: the worker
    thread cannot be interrupted and finishes the call on its own. *)
Record World : Type := mkWorld {
  globals : State;
  tasks : list Task;
  background : list Job
}.

(** Where a coroutine comes to rest.  [acquire()] returns at once only
    when a permit is free; it may also park the caller although one is
    (later Pythons queue behind waiters that were woken and have not run). *)
Inductive lands : Coro Response -> State -> Task -> Prop :=
| lands_done s r :
    lands (Done s r) s (Finished r)
| lands_fast s k g t :
    0 < _semaphore s ->
    lands (k (Ok tt) (add_semaphore (-1) s)) g t ->
    lands (Acquire s k) g t
| lands_park s k :
    lands (Acquire s k) s (Waiting k)
| lands_exec s j k :
    lands (Execute s j k) s (Running j k).

(** The same, as a function: the path that takes a free permit at once. *)
Fixpoint advance (c : Coro Response) : State * Task :=
  match c with
  | Done s r => (s, Finished r)
  | Acquire s k =>
      if 0 <? _semaphore s then advance (k (Ok tt) (add_semaphore (-1) s))
      else (s, Waiting k)
  | Execute s j k => (s, Running j k)
  end.

Inductive step : World -> World -> Prop :=
| step_request w req g t :
    lands (handler req (globals w)) g t ->
    step w {| globals := g; tasks := tasks w ++ [t];
              background := background w |}
| step_wake w i k :
    tasks w !! i = Some (Waiting k) ->
    0 < _semaphore (globals w) ->
    step w {| globals := add_semaphore (-1) (globals w);
              tasks := <[i := Woken k]> (tasks w);
              background := background w |}
| step_resume w i k g t :
    tasks w !! i = Some (Woken k) ->
    lands (k (Ok tt) (globals w)) g t ->
    step w {| globals := g; tasks := <[i := t]> (tasks w);
              background := background w |}
| step_cancel_waiting w i k g t :
    tasks w !! i = Some (Waiting k) ->
    lands (k (Raise CancelledError) (globals w)) g t ->
    step w {| globals := g; tasks := <[i := t]> (tasks w);
              background := background w |}
| step_cancel_woken w i k g t :
    tasks w !! i = Some (Woken k) ->
    lands (k (Raise CancelledError) (add_semaphore 1 (globals w))) g t ->
    step w {| globals := g; tasks := <[i := t]> (tasks w);
              background := background w |}
| step_job_returns w i j k g1 v g t :
    tasks w !! i = Some (Running j k) ->
    j (globals w) = (g1, Returns v) ->
    lands (k (Ok v) g1) g t ->
    step w {| globals := g; tasks := <[i := t]> (tasks w);
              background := background w |}
| step_job_raises w i j k g1 e g t :
    tasks w !! i = Some (Running j k) ->
    j (globals w) = (g1, Raises e) ->
    lands (k (Raise e) g1) g t ->
    step w {| globals := g; tasks := <[i := t]> (tasks w);
              background := background w |}
| step_timeout w i j k g t :
    tasks w !! i = Some (Running j k) ->
    lands (k (Raise TimeoutError) (globals w)) g t ->
    step w {| globals := g; tasks := <[i := t]> (tasks w);
              background := j :: background w |}
| step_cancel_running w i j k g t :
    tasks w !! i = Some (Running j k) ->
    lands (k (Raise CancelledError) (globals w)) g t ->
    step w {| globals := g; tasks := <[i := t]> (tasks w);
              background := j :: background w |}
| step_background w n j :
    background w !! n = Some j ->
    step w {| globals := fst (j (globals w)); tasks := tasks w;
              background := delete n (background w) |}
| step_shutdown w :
    step w {| globals := _handle_shutdown (globals w); tasks := tasks w;
              background := background w |}.

Definition start (g : State) : World :=
  {| globals := g; tasks := []; background := [] |}.

(** The worlds the service can be in after a successful start-up. *)
Definition reachable (w : World) : Prop :=
  exists g, lifespan = Ok g /\ rtc step (start g) w.

(** Counting the tasks of a kind. *)
Definition total (f : Task -> Z) (l : list Task) : Z :=
  foldr (fun t n => f t + n) 0 l.

Definition holds_permit (t : Task) : Z :=
  match t with Woken _ | Running _ _ => 1 | _ => 0 end.
Definition is_queued (t : Task) : Z :=
  match t with Waiting _ | Woken _ => 1 | _ => 0 end.
Definition is_running (t : Task) : Z :=
  match t with Running _ _ => 1 | _ => 0 end.

Definition held_permits (w : World) : Z := total holds_permit (tasks w).
Definition waiting_count (w : World) : Z := total is_queued (tasks w).

(** *** Reading a coroutine *)

(** How far a coroutine got: it returned, raised, asks the semaphore for a
    permit, or waits for its job. *)
Inductive verdict : Type :=
| Returned
| Raised (e : exn)
| AsksPermit
| AwaitsJob.

Definition verdict_of {A : Type} (c : Coro A) : verdict :=
  match c with
  | Done _ (Ok _) => Returned
  | Done _ (Raise e) => Raised e
  | Acquire _ _ => AsksPermit
  | Execute _ _ _ => AwaitsJob
  end.

(** What [asyncio.wait_for] gives back for a job: its result, or
    [TimeoutError] when the deadline comes first, which it must when the
    job hangs.  The writes of a job that was timed out land after its
    caller has gone and are not part of the caller's run. *)
Definition wait_for (deadline_first : bool) (j : Job) (s : State) :
    State * res bytes :=
  if deadline_first then (s, Raise TimeoutError)
  else
    match j s with
    | (s', Returns v) => (s', Ok v)
    | (s', Raises e) => (s', Raise e)
    | (s', Hangs) => (s', Raise TimeoutError)
    end.

(** One request served with nothing else on the loop; [None] when it would
    wait for a permit that nobody is there to release. *)
Fixpoint run_alone {A : Type} (deadline_first : bool) (c : Coro A) :
    option (State * res A) :=
  match c with
  | Done s r => Some (s, r)
  | Acquire s k =>
      if 0 <? _semaphore s
      then run_alone deadline_first (k (Ok tt) (add_semaphore (-1) s))
      else None
  | Execute s j k =>
      let '(s', o) := wait_for deadline_first j s in
      run_alone deadline_first (k o s')
  end.

(** The upload of a request. *)
Definition image_of (req : Request) : bytes :=
  match req with
  | RemoveBackground image _ _ => image
  | Process image _ _ _ _ _ _ _ => image
  | RenderTemplate image _ _ _ _ _ => image
  | ProcessFull image _ _ _ _ _ _ _ _ _ _ => image
  end.

(** The error [_run_processing] raises for an exception of the job, by
    its [except] clauses. *)
Definition http_error_of (e : exn) : exn :=
  match e with
  | HTTPException _ _ => e
  | TimeoutError => HTTPException 504 (ProcessingTimedOut REQUEST_TIMEOUT)
  | Exception _ _ => HTTPException 500 (ProcessingFailed e)
  | CancelledError => e
  end.

(** *** What the code leaves in place across an await

    [moved ds dq dp g g']: from [g] to [g'] the free permits changed by
    [ds], [current_queued] by [dq], [current_processing] by [dp], and no
    counter went down. *)
Definition counters_le (g g' : State) : Prop :=
  total_requests (metrics g) <= total_requests (metrics g') /\
  total_success (metrics g) <= total_success (metrics g') /\
  total_errors (metrics g) <= total_errors (metrics g') /\
  total_timeouts (metrics g) <= total_timeouts (metrics g') /\
  total_rejected (metrics g) <= total_rejected (metrics g').

Definition moved (ds dq dp : Z) (g g' : State) : Prop :=
  _semaphore g' = _semaphore g + ds /\
  current_queued (metrics g') = current_queued (metrics g) + dq /\
  current_processing (metrics g') = current_processing (metrics g) + dp /\
  counters_le g g'.

Definition good_thread {A : Type} (m : T A) : Prop :=
  forall g, moved 0 0 0 g (fst (m g)).

Definition good_run {A : Type} (k : res bytes -> State -> Coro A) : Prop :=
  forall o g, exists g' r, k o g = Done g' r /\ moved 1 0 (-1) g g'.

Definition good_wait {A : Type} (k : res unit -> State -> Coro A) : Prop :=
  (forall g, exists g' j k2,
      k (Ok tt) g = Execute g' j k2 /\ good_thread j /\ good_run k2 /\
      moved 0 (-1) 1 g g') /\
  (forall e g, exists g' r, k (Raise e) g = Done g' r /\ moved 0 (-1) 0 g g').

Definition good_call {A : Type} (g : State) (c : Coro A) : Prop :=
  (exists g' r, c = Done g' r /\ moved 0 0 0 g g') \/
  (exists g' k, c = Acquire g' k /\ good_wait k /\
      current_queued (metrics g) < MAX_QUEUE_SIZE /\ moved 0 1 0 g g').

Definition task_ok (t : Task) : Prop :=
  match t with
  | Waiting k | Woken k => good_wait k
  | Running j k => good_thread j /\ good_run k
  | Finished _ => True
  end.

(** The invariant of the event loop. *)
Definition Inv (w : World) : Prop :=
  0 <= _semaphore (globals w) /\
  _semaphore (globals w) + held_permits w = MAX_CONCURRENT /\
  current_processing (metrics (globals w)) = total is_running (tasks w) /\
  current_queued (metrics (globals w)) = waiting_count w /\
  (0 <= MAX_QUEUE_SIZE -> waiting_count w <= MAX_QUEUE_SIZE) /\
  Forall task_ok (tasks w) /\
  Forall good_thread (background w).

(** *** Serving one request after the other

    [serve req w]: the request arrives in [w] and, when it gets a permit
    at once and its job returns, is resumed with the result. *)
Definition serve (req : Request) (w : World) : World :=
  let '(g1, t) := advance (handler req (globals w)) in
  match t with
  | Running j k =>
      match j g1 with
      | (g2, Returns v) =>
          let '(g3, t') := advance (k (Ok v) g2) in
          {| globals := g3; tasks := tasks w ++ [t'];
             background := background w |}
      | _ =>
          {| globals := g1; tasks := tasks w ++ [t];
             background := background w |}
      end
  | _ =>
      {| globals := g1; tasks := tasks w ++ [t]; background := background w |}
  end.

(** *** Two runs that differ in the shutdown event only

    [alike b1 b2 s1 s2]: the two states have the same metrics and the same
    free permits, and their shutdown events are [b1] and [b2].
    [same_run b1 b2 c1 c2]: the two coroutines come to rest in the same
    way, in states that are alike, with the same result or the same job,
    and they go on in the same way whenever they are resumed with the same
    value in states that are alike, whatever the events are by then. *)
Definition alike (b1 b2 : bool) (s1 s2 : State) : Prop :=
  metrics s1 = metrics s2 /\ _semaphore s1 = _semaphore s2 /\
  _shutdown_event s1 = b1 /\ _shutdown_event s2 = b2.

Definition blind_job {A : Type} (j : T A) : Prop :=
  forall b1 b2 s1 s2, alike b1 b2 s1 s2 ->
    alike b1 b2 (fst (j s1)) (fst (j s2)) /\ snd (j s1) = snd (j s2).

Fixpoint same_run {A : Type} (b1 b2 : bool) (c1 c2 : Coro A) {struct c1} :
    Prop :=
  match c1, c2 with
  | Done s1 r1, Done s2 r2 => alike b1 b2 s1 s2 /\ r1 = r2
  | Acquire s1 k1, Acquire s2 k2 =>
      alike b1 b2 s1 s2 /\
      forall r b1' b2' s1' s2', alike b1' b2' s1' s2' ->
        same_run b1' b2' (k1 r s1') (k2 r s2')
  | Execute s1 j1 k1, Execute s2 j2 k2 =>
      alike b1 b2 s1 s2 /\ j1 = j2 /\ blind_job j1 /\
      forall r b1' b2' s1' s2', alike b1' b2' s1' s2' ->
        same_run b1' b2' (k1 r s1') (k2 r s2')
  | _, _ => False
  end.

(** *** What every step keeps

    [timing_ok]: the three stage deques exist and no timing deque is over
    its capacity.  [unaccounted] is the number of requests counted in
    [total_requests] that are neither answered, nor waiting, nor running.
    [keeps g g']: from [g] to [g'] the timing deques stay in order, the
    shutdown event is not cleared, and neither [unaccounted] nor the excess
    of errors over timeouts goes down. *)
Definition stage_names : list string := ["bg_removal"; "processing"; "template"].

Definition timing_ok (m : Metrics) : Prop :=
  (forall stage, In stage stage_names -> is_Some (stage_times m !! stage)) /\
  (forall stage d, stage_times m !! stage = Some d ->
                   Z.of_nat (length d) <= maxlen) /\
  Z.of_nat (length (processing_times m)) <= maxlen.

Definition unaccounted (m : Metrics) : Z :=
  total_requests m - total_success m - total_errors m - total_rejected m
  - current_queued m - current_processing m.

Definition keeps (g g' : State) : Prop :=
  (timing_ok (metrics g) -> timing_ok (metrics g')) /\
  (_shutdown_event g = true -> _shutdown_event g' = true) /\
  unaccounted (metrics g) <= unaccounted (metrics g') /\
  total_errors (metrics g) - total_timeouts (metrics g) <=
    total_errors (metrics g') - total_timeouts (metrics g').

Definition keeping_thread {A : Type} (m : T A) : Prop :=
  forall g, keeps g (fst (m g)).

Definition keeping_run {A : Type} (k : res bytes -> State -> Coro A) : Prop :=
  forall o g, exists g' r, k o g = Done g' r /\ keeps g g'.

Definition keeping_wait {A : Type} (k : res unit -> State -> Coro A) : Prop :=
  (forall g, exists g' j k2,
      k (Ok tt) g = Execute g' j k2 /\ keeping_thread j /\ keeping_run k2 /\
      keeps g g') /\
  (forall e g, exists g' r, k (Raise e) g = Done g' r /\ keeps g g').

Definition keeping_call {A : Type} (g : State) (c : Coro A) : Prop :=
  (exists g' r, c = Done g' r /\ keeps g g') \/
  (exists g' k, c = Acquire g' k /\ keeping_wait k /\ keeps g g').

Definition keeping_task (t : Task) : Prop :=
  match t with
  | Waiting k | Woken k => keeping_wait k
  | Running j k => keeping_thread j /\ keeping_run k
  | Finished _ => True
  end.

Definition Keeping (w : World) : Prop :=
  Forall keeping_task (tasks w) /\ Forall keeping_thread (background w).

(** Every request has been answered. *)
Definition quiescent (w : World) : Prop :=
  Forall (fun t => exists r, t = Finished r) (tasks w).

(** *** What a client can be answered

    An exception is [ordinary] when it is neither an [HTTPException] nor a
    [BaseException] such as [CancelledError]. *)
Definition ordinary (e : exn) : Prop :=
  match e with
  | Exception _ _ | TimeoutError => True
  | HTTPException _ _ | CancelledError => False
  end.




(** The disk probe of a request. *)
Definition disk_of (req : Request) : res Z :=
  match req with
  | RemoveBackground _ disk_usage _ => disk_usage
  | Process _ _ _ _ _ _ disk_usage _ => disk_usage
  | RenderTemplate _ _ _ _ disk_usage _ => disk_usage
  | ProcessFull _ _ _ _ _ _ _ _ _ disk_usage _ => disk_usage
  end.


Arguments Qltb : simpl never.

Ltac moved_tac :=
  unfold moved, counters_le; cbn; repeat split; lia.

Lemma moved_refl g : moved 0 0 0 g g.
Proof. moved_tac. Qed.

Lemma moved_trans a b c a' b' c' g1 g2 g3 :
  moved a b c g1 g2 -> moved a' b' c' g2 g3 ->
  moved (a + a') (b + b') (c + c') g1 g3.
Proof. unfold moved, counters_le. intros. repeat split; lia. Qed.

Lemma good_thread_ret {A : Type} (a : A) : good_thread (retT a).
Proof. intros g. apply moved_refl. Qed.

Lemma good_thread_call {A : Type} (o : outcome A) : good_thread (call o).
Proof. intros g. apply moved_refl. Qed.

Lemma good_thread_bind {A B : Type} (m : T A) (f : A -> T B) :
  good_thread m -> (forall a, good_thread (f a)) -> good_thread (bindT m f).
Proof.
  intros Hm Hf g. unfold bindT. specialize (Hm g).
  destruct (m g) as [g1 [a|e|]]; cbn in *; trivial.
  specialize (Hf a g1).
  replace 0 with (0 + 0) by lia. eapply moved_trans; eassumption.
Qed.

Lemma good_thread_stage_times_append stage x :
  good_thread (stage_times_append stage x).
Proof.
  intros g. unfold stage_times_append.
  destruct (stage_times (metrics g) !! stage); moved_tac.
Qed.

Lemma good_thread_processing_times_append x :
  good_thread (processing_times_append x).
Proof. intros g. moved_tac. Qed.

Create HintDb thread discriminated.
#[local] Hint Resolve good_thread_ret good_thread_call good_thread_stage_times_append
  good_thread_processing_times_append : thread.

Ltac thread_tac :=
  repeat first
    [ apply good_thread_bind; [ | intros ? ]
    | solve [ auto with thread ]
    | apply good_thread_call ].

Lemma good_remove_bg_do data time : good_thread (remove_bg_do data time).
Proof. unfold remove_bg_do. thread_tac. Qed.

Lemma good_process_do img bg pad sh wd ht time :
  good_thread (process_do img bg pad sh wd ht time).
Proof. unfold process_do, _to_png_bytes. thread_tac. Qed.

Lemma good_render_template_do img text bh fs time :
  good_thread (render_template_do img text bh fs time).
Proof. unfold render_template_do, _to_png_bytes. thread_tac. Qed.

Lemma good_process_full_do img bg pad sh wd ht text bh fs time :
  good_thread (process_full_do img bg pad sh wd ht text bh fs time).
Proof. unfold process_full_do, _to_png_bytes. thread_tac. Qed.

Ltac done_tac := do 2 eexists; split; [reflexivity | moved_tac].

Ltac unfold_coro :=
  unfold _run_processing, _check_disk_space, _acquire_slot, _release_slot,
    gc_collect, semaphore_acquire, wait_for_executor, bind, try_except,
    try_finally, lift, get, modify, ret, raise.

Lemma run_processing_good disk_usage func g :
  good_thread func -> good_call g (_run_processing disk_usage func g).
Proof.
  intros Hf. unfold_coro.
  destruct disk_usage as [free|e]; cbn;
    [destruct (Qltb _ _); cbn | destruct e; cbn];
    try (left; done_tac);
    (destruct (current_queued (metrics g) >=? MAX_QUEUE_SIZE) eqn:E; cbn;
     [left; done_tac|]);
    right; do 2 eexists; (split; [reflexivity|]);
    (split; [|split; [lia|moved_tac]]);
    (split;
     [ intros s; cbn; do 3 eexists; split; [reflexivity|];
       split; [exact Hf|]; split; [|moved_tac];
       intros [v|e'] s'; [|destruct e']; cbn; done_tac
     | intros e' s; cbn; done_tac ]).
Qed.

(** A return value mapped by a pure function keeps the shape. *)
Lemma good_run_map {A B : Type} (f : A -> B) k :
  good_run k ->
  good_run (fun r s => bindC (k r s) (fun x => ret (f x))).
Proof.
  intros H o g. destruct (H o g) as (g' & r & -> & Hm).
  destruct r; cbn; do 2 eexists; (split; [reflexivity|exact Hm]).
Qed.

Lemma good_wait_map {A B : Type} (f : A -> B) k :
  good_wait k ->
  good_wait (fun r s => bindC (k r s) (fun x => ret (f x))).
Proof.
  intros [H1 H2]. split.
  - intros g. destruct (H1 g) as (g' & j & k2 & -> & Hj & Hk & Hm).
    cbn. do 3 eexists. split; [reflexivity|].
    split; [exact Hj|]. split; [|exact Hm]. apply good_run_map, Hk.
  - intros e g. destruct (H2 e g) as (g' & r & -> & Hm).
    destruct r; cbn; do 2 eexists; (split; [reflexivity|exact Hm]).
Qed.

Lemma good_call_map {A B : Type} (f : A -> B) g c :
  good_call g c -> good_call g (bindC c (fun x => ret (f x))).
Proof.
  intros [(g' & r & -> & Hm)|(g' & k & -> & Hk & Hq & Hm)].
  - left. destruct r; cbn; do 2 eexists; (split; [reflexivity|exact Hm]).
  - right. cbn. do 2 eexists. split; [reflexivity|].
    split; [apply good_wait_map, Hk|]. split; assumption.
Qed.

(** Validation touches no global and does not depend on them. *)
Lemma read_image_pure data : exists r, forall s, _read_image data s = Done s r.
Proof.
  unfold _read_image, try_except, lift, bind, raise, ret.
  destruct (_ =? 0); [eexists; reflexivity|].
  destruct (_ >? _); [eexists; reflexivity|].
  destruct (Image_open_verified data) as [img|e]; cbn; [eexists; reflexivity|].
  destruct (is_Exception e); eexists; reflexivity.
Qed.

Lemma handler_good req g : good_call g (handler req g).
Proof.
  destruct req; cbn [handler];
    unfold remove_bg_endpoint, process_endpoint, render_template_endpoint,
      process_full_endpoint;
    unfold bind at 1;
    destruct (read_image_pure image) as [[p|e] ->];
    cbn [bindC];
    try (left; do 2 eexists; split; [reflexivity|apply moved_refl]);
    unfold bind at 1; apply good_call_map, run_processing_good.
  - apply good_remove_bg_do.
  - apply good_process_do.
  - apply good_render_template_do.
  - apply good_process_full_do.
Qed.

Lemma total_app f l1 l2 : total f (l1 ++ l2) = total f l1 + total f l2.
Proof.
  unfold total. induction l1 as [|t l1 IH]; cbn; [reflexivity|].
  rewrite IH. lia.
Qed.

Lemma total_insert f (l : list Task) i t t' :
  l !! i = Some t -> total f (<[i := t']> l) = total f l - f t + f t'.
Proof.
  unfold total. revert i.
  induction l as [|x l IH]; intros [|i] H; simpl in *; try discriminate.
  - injection H as ->. lia.
  - rewrite (IH i H). lia.
Qed.

Lemma lands_call g c g' t :
  good_call g c -> lands c g' t ->
  task_ok t /\ moved (- holds_permit t) (is_queued t) (is_running t) g g' /\
  (is_queued t = 1 -> current_queued (metrics g) < MAX_QUEUE_SIZE) /\
  (holds_permit t = 1 -> 0 < _semaphore g).
Proof.
  intros [(g1 & r & -> & Hm)|(g1 & k & -> & Hk & Hq & Hm)] Hl.
  - inversion Hl; subst. cbn. repeat split; try lia; apply Hm.
  - inversion Hl; subst.
    + destruct Hk as [Hk _].
      destruct (Hk (add_semaphore (-1) g1)) as (g2 & j & k2 & Heq & Hj & Hk2 & Hm2).
      rewrite Heq in *.
      match goal with H : lands (Execute _ _ _) _ _ |- _ => inversion H; subst end.
      cbn. split; [split; assumption|].
      unfold moved, counters_le in *. cbn in *. repeat split; lia.
    + cbn. split; [exact Hk|]. unfold moved, counters_le in *. repeat split; lia.
Qed.

Lemma lands_resume {k g g' t} :
  good_wait k -> lands (k (Ok tt) g) g' t ->
  task_ok t /\ holds_permit t = 1 /\ is_queued t = 0 /\ is_running t = 1 /\
  moved 0 (-1) 1 g g'.
Proof.
  intros [Hk _] Hl. destruct (Hk g) as (g2 & j & k2 & Heq & Hj & Hk2 & Hm).
  rewrite Heq in Hl. inversion Hl; subst. cbn.
  repeat (split; [first [reflexivity | assumption | split; assumption]|]). exact Hm.
Qed.

Lemma lands_abandon {k e g g' t} :
  good_wait k -> lands (k (Raise e) g) g' t ->
  task_ok t /\ holds_permit t = 0 /\ is_queued t = 0 /\ is_running t = 0 /\
  moved 0 (-1) 0 g g'.
Proof.
  intros [_ Hk] Hl. destruct (Hk e g) as (g2 & r & Heq & Hm).
  rewrite Heq in Hl. inversion Hl; subst. cbn.
  repeat (split; [first [reflexivity | assumption | split; assumption]|]). exact Hm.
Qed.

Lemma lands_exit {k o g g' t} :
  good_run k -> lands (k o g) g' t ->
  task_ok t /\ holds_permit t = 0 /\ is_queued t = 0 /\ is_running t = 0 /\
  moved 1 0 (-1) g g'.
Proof.
  intros Hk Hl. destruct (Hk o g) as (g2 & r & Heq & Hm).
  rewrite Heq in Hl. inversion Hl; subst. cbn.
  repeat (split; [first [reflexivity | assumption | split; assumption]|]). exact Hm.
Qed.

Lemma lands_advance c : lands c (fst (advance c)) (snd (advance c)).
Proof.
  induction c as [s r|s k IH|s j k IH]; cbn [advance].
  - constructor.
  - destruct (0 <? _semaphore s) eqn:E.
    + apply lands_fast; [lia|apply IH].
    + apply lands_park.
  - constructor.
Qed.

Ltac inv_tac :=
  unfold held_permits, waiting_count in *; cbn [globals tasks background] in *;
  repeat match goal with
  | H : ?l !! _ = Some _ |- context [total ?f (<[_ := _]> ?l)] =>
      rewrite (total_insert f _ _ _ _ H)
  end;
  unfold moved, counters_le in *; cbn in *.

Lemma step_sound w w' :
  Inv w -> step w w' -> Inv w' /\ counters_le (globals w) (globals w').
Proof.
  intros (Hs & Hh & Hp & Hq & Hb & Ht & Hg) Hstep.
  destruct Hstep as
    [ w req g t Hl | w i k Hi Hfree | w i k g t Hi Hl | w i k g t Hi Hl
    | w i k g t Hi Hl | w i j k g1 v g t Hi Hj Hl | w i j k g1 e g t Hi Hj Hl
    | w i j k g t Hi Hl | w i j k g t Hi Hl | w n j Hn | w ].
  - destruct (lands_call _ _ _ _ (handler_good req (globals w)) Hl)
      as (Hok & Hm & Hlim & Hperm).
    unfold Inv. inv_tac. rewrite !total_app. cbn.
    destruct Hm as (? & ? & ? & ?).
    assert (holds_permit t = 0 \/ holds_permit t = 1) by (destruct t; cbn; lia).
    assert (is_queued t = 0 \/ is_queued t = 1) by (destruct t; cbn; lia).
    split; [|tauto].
    repeat split; try lia; try assumption.
    apply Forall_app. split; [assumption|]. constructor; [assumption|constructor].
  - pose proof (Forall_lookup_1 _ _ _ _ Ht Hi) as Hk.
    unfold Inv. inv_tac. split; [|lia].
    repeat split; try lia; try assumption.
    apply Forall_insert; assumption.
  - pose proof (Forall_lookup_1 _ _ _ _ Ht Hi) as Hk.
    destruct (lands_resume Hk Hl) as (Hok & E1 & E2 & E3 & Hm).
    unfold Inv. inv_tac. rewrite E1, E2, E3. split; [|tauto].
    repeat split; try lia; try assumption.
    apply Forall_insert; assumption.
  - pose proof (Forall_lookup_1 _ _ _ _ Ht Hi) as Hk.
    destruct (lands_abandon Hk Hl) as (Hok & E1 & E2 & E3 & Hm).
    unfold Inv. inv_tac. rewrite E1, E2, E3. split; [|tauto].
    repeat split; try lia; try assumption.
    apply Forall_insert; assumption.
  - pose proof (Forall_lookup_1 _ _ _ _ Ht Hi) as Hk.
    destruct (lands_abandon Hk Hl) as (Hok & E1 & E2 & E3 & Hm).
    unfold Inv. inv_tac. rewrite E1, E2, E3. split; [|tauto].
    repeat split; try lia; try assumption.
    apply Forall_insert; assumption.
  - pose proof (Forall_lookup_1 _ _ _ _ Ht Hi) as [Hgj Hk].
    destruct (lands_exit Hk Hl) as (Hok & E1 & E2 & E3 & Hm).
    pose proof (Hgj (globals w)) as Hmj. rewrite Hj in Hmj.
    unfold Inv. inv_tac. rewrite E1, E2, E3. split; [|lia].
    repeat split; try lia; try assumption.
    apply Forall_insert; assumption.
  - pose proof (Forall_lookup_1 _ _ _ _ Ht Hi) as [Hgj Hk].
    destruct (lands_exit Hk Hl) as (Hok & E1 & E2 & E3 & Hm).
    pose proof (Hgj (globals w)) as Hmj. rewrite Hj in Hmj.
    unfold Inv. inv_tac. rewrite E1, E2, E3. split; [|lia].
    repeat split; try lia; try assumption.
    apply Forall_insert; assumption.
  - pose proof (Forall_lookup_1 _ _ _ _ Ht Hi) as [Hgj Hk].
    destruct (lands_exit Hk Hl) as (Hok & E1 & E2 & E3 & Hm).
    unfold Inv. inv_tac. rewrite E1, E2, E3. split; [|tauto].
    repeat split; try lia; try assumption.
    + apply Forall_insert; assumption.
    + constructor; assumption.
  - pose proof (Forall_lookup_1 _ _ _ _ Ht Hi) as [Hgj Hk].
    destruct (lands_exit Hk Hl) as (Hok & E1 & E2 & E3 & Hm).
    unfold Inv. inv_tac. rewrite E1, E2, E3. split; [|tauto].
    repeat split; try lia; try assumption.
    + apply Forall_insert; assumption.
    + constructor; assumption.
  - pose proof (Forall_lookup_1 _ _ _ _ Hg Hn (globals w)) as Hmj.
    unfold Inv. inv_tac. split; [|tauto].
    repeat split; try lia; try assumption.
    apply Forall_delete; assumption.
  - unfold Inv. inv_tac. repeat split; try lia; assumption.
Qed.

Lemma counters_le_refl g : counters_le g g.
Proof. unfold counters_le. lia. Qed.

Lemma counters_le_trans g1 g2 g3 :
  counters_le g1 g2 -> counters_le g2 g3 -> counters_le g1 g3.
Proof. unfold counters_le. lia. Qed.

Lemma start_Inv g : lifespan = Ok g -> Inv (start g).
Proof.
  unfold lifespan, Semaphore.
  destruct (MAX_CONCURRENT <? 0) eqn:E; [discriminate|].
  intros [= <-]. unfold Inv, held_permits, waiting_count. cbn.
  repeat split; try lia; constructor.
Qed.

Lemma steps_sound w w' :
  Inv w -> rtc step w w' -> Inv w' /\ counters_le (globals w) (globals w').
Proof.
  intros HI Hs. induction Hs as [w|w1 w2 w3 H12 _ IH].
  - split; [assumption|apply counters_le_refl].
  - destruct (step_sound _ _ HI H12) as [HI2 Hc]. destruct (IH HI2) as [HI3 Hc'].
    split; [assumption|]. eapply counters_le_trans; eassumption.
Qed.

Lemma reachable_Inv w : reachable w -> Inv w.
Proof.
  intros (g & Hg & Hs). apply (steps_sound (start g)); [|assumption].
  apply start_Inv; assumption.
Qed.

Lemma total_le f1 f2 (l : list Task) :
  (forall t, f1 t <= f2 t) -> total f1 l <= total f2 l.
Proof.
  intros H. unfold total. induction l as [|t l IH]; simpl; [lia|].
  specialize (H t). lia.
Qed.

Lemma Qltb_lt x y : Qltb x y = true <-> (x < y)%Q.
Proof.
  unfold Qltb. rewrite negb_true_iff. split.
  - intros H. apply Qnot_le_lt. intros Hle.
    apply Qle_bool_iff in Hle. congruence.
  - intros H. destruct (Qle_bool y x) eqn:E; [|reflexivity].
    apply Qle_bool_iff in E. exfalso. exact (Qlt_not_le _ _ H E).
Qed.

Lemma inject_Z_nonzero (z : Z) : z <> 0 -> Qeq_bool (inject_Z z) 0 = false.
Proof.
  intros H. destruct (Qeq_bool (inject_Z z) 0) eqn:E; [|reflexivity].
  apply Qeq_bool_iff in E. unfold Qeq, inject_Z in E. simpl in E. lia.
Qed.

Lemma truediv_nonzero (fl : Q -> Q) (x y : Z) :
  y <> 0 -> truediv fl (inject_Z x) (inject_Z y) = Ok (fl (inject_Z x / inject_Z y)%Q).
Proof. intros H. unfold truediv. rewrite (inject_Z_nonzero y H). reflexivity. Qed.

Lemma truediv_len (fl : Q -> Q) (x : Q) (a : Q) (d : list Q) :
  truediv fl x (lenQ (a :: d)) = Ok (fl (x / lenQ (a :: d))%Q).
Proof.
  unfold truediv, lenQ. rewrite inject_Z_nonzero; [reflexivity|].
  cbn [length]. lia.
Qed.

(** *** The properties of the specification *)

(** C1.  In every world the service can reach by any interleaving of
    arrivals, wake-ups, resumptions, cancellations, job ends, timeouts and
    the shutdown signal, the permits held are at most [MAX_CONCURRENT] (the
    semaphore is never negative, and [current_processing] is within the same
    bound) and the callers waiting, which [current_queued] counts, are at
    most [MAX_QUEUE_SIZE]; the queue limit is taken non-negative. *)
Theorem slots_and_queue_bounded (w : World) :
  0 <= MAX_QUEUE_SIZE ->
  reachable w ->
  held_permits w <= MAX_CONCURRENT /\
  held_permits w = MAX_CONCURRENT - _semaphore (globals w) /\
  current_processing (metrics (globals w)) <= MAX_CONCURRENT /\
  waiting_count w <= MAX_QUEUE_SIZE /\
  current_queued (metrics (globals w)) = waiting_count w.
Proof.
  intros HQ Hr. destruct (reachable_Inv w Hr) as (Hs & Hh & Hp & Hq & Hb & _).
  assert (total is_running (tasks w) <= held_permits w).
  { apply total_le. intros []; cbn; lia. }
  repeat split; lia.
Qed.

(** C3.  An admission attempt made while [current_queued] is at least
    [MAX_QUEUE_SIZE] ends at once in [HTTPException(503)]: the coroutine is
    done without reaching the semaphore, [total_rejected] went up by one,
    and neither [current_queued] nor the free permits changed. *)
Theorem acquire_slot_queue_full (s : State) :
  current_queued (metrics s) >= MAX_QUEUE_SIZE ->
  exists s',
    _acquire_slot s =
      Done s' (Raise (HTTPException 503
                        (ServerBusy (current_queued (metrics s)) MAX_QUEUE_SIZE))) /\
    total_rejected (metrics s') = total_rejected (metrics s) + 1 /\
    current_queued (metrics s') = current_queued (metrics s) /\
    current_processing (metrics s') = current_processing (metrics s) /\
    _semaphore s' = _semaphore s.
Proof.
  intros H. unfold_coro. cbn.
  destruct (current_queued (metrics s) >=? MAX_QUEUE_SIZE) eqn:E; [|lia].
  cbn. eexists. split; [reflexivity|]. cbn. repeat split; lia.
Qed.

(** C6.  When the free disk space is below [MIN_DISK_MB], [_run_processing]
    raises [HTTPException(503)] and that is all it does: the globals are
    untouched ([total_requests] is not incremented, no permit is asked for
    or released) and the job is never started. *)
Theorem run_processing_low_disk (free : Z) (func : Job) (s : State) :
  (inject_Z free / inject_Z (1024 * 1024) < inject_Z MIN_DISK_MB)%Q ->
  _run_processing (Ok free) func s =
    Done s (Raise (HTTPException 503
                     (LowDiskSpace (inject_Z free / inject_Z (1024 * 1024))%Q
                        MIN_DISK_MB))).
Proof.
  intros H. apply Qltb_lt in H. unfold_coro. cbn in *. rewrite H. reflexivity.
Qed.

(** C8.  [error_rate()] returns 0 when there were no requests; it does
    not reach the division, which would raise [ZeroDivisionError] there.
    Otherwise it returns [total_errors / total_requests] (the double
    nearest to the quotient) and does not fault either. *)
Theorem error_rate_spec (fl : Q -> Q) (self : Metrics) :
  (total_requests self = 0 ->
   error_rate fl self = Ok 0%Q /\
   truediv fl (inject_Z (total_errors self)) (inject_Z (total_requests self))
     = Raise ZeroDivisionError) /\
  (total_requests self <> 0 ->
   error_rate fl self =
     Ok (fl (inject_Z (total_errors self) / inject_Z (total_requests self))%Q)).
Proof.
  unfold error_rate. split; intros H.
  - rewrite H. split; reflexivity.
  - destruct (total_requests self =? 0) eqn:E; [lia|].
    apply truediv_nonzero. exact H.
Qed.

(** C9.  An upload that fails validation in [_read_image] (empty: 400;
    larger than [MAX_IMAGE_SIZE]: 413; rejected by the decoder: 400) ends
    the request right there, for each of the four endpoints: the globals
    are untouched, so [total_requests] is not incremented, no permit is
    taken or released and no timing sample is recorded. *)
Theorem invalid_upload_refused (req : Request) (s : State) :
  let data := image_of req in
  let len := Z.of_nat (length data) in
  (len = 0 -> handler req s = Done s (Raise (HTTPException 400 EmptyFile))) /\
  (len <> 0 -> len > MAX_IMAGE_SIZE ->
   handler req s =
     Done s (Raise (HTTPException 413 (ImageTooLarge len MAX_IMAGE_SIZE)))) /\
  (forall e, len <> 0 -> len <= MAX_IMAGE_SIZE ->
   Image_open_verified data = Raise e -> is_Exception e = true ->
   handler req s = Done s (Raise (HTTPException 400 (InvalidImage e)))).
Proof.
  destruct req; cbn [image_of handler];
    unfold remove_bg_endpoint, process_endpoint, render_template_endpoint,
      process_full_endpoint;
    unfold bind at 1; unfold _read_image, try_except, lift, bind, raise, ret;
    (split; [|split]).
  all: try (intros H; rewrite H; reflexivity).
  all: try (intros H1 H2;
            destruct (Z.of_nat (length image) =? 0) eqn:E1; [lia|];
            destruct (Z.of_nat (length image) >? MAX_IMAGE_SIZE) eqn:E2; [|lia];
            reflexivity).
  all: intros e H1 H2 H3 H4;
       destruct (Z.of_nat (length image) =? 0) eqn:E1; [lia|];
       destruct (Z.of_nat (length image) >? MAX_IMAGE_SIZE) eqn:E2; [lia|];
       rewrite H3; cbn; rewrite H4; reflexivity.
Qed.

(** The course of a call of [_run_processing] that passed the disk guard
    and the queue check: what it has done when it asks for a permit, when
    it is resumed with one, and when the await on its job ends. *)
Lemma run_processing_anatomy disk_usage func g g1 k :
  _run_processing disk_usage func g = Acquire g1 k ->
  g1 = with_metrics (add_current_queued 1) (with_metrics incr_total_requests g) /\
  (forall e s,
     k (Raise e) s = Done (with_metrics (add_current_queued (-1)) s) (Raise e)) /\
  exists k2,
    (forall s,
       k (Ok tt) s =
         Execute (with_metrics (add_current_processing 1)
                    (with_metrics (add_current_queued (-1)) s)) func k2) /\
    (forall v s,
       k2 (Ok v) s =
         Done (add_semaphore 1 (with_metrics (add_current_processing (-1))
                 (with_metrics incr_total_success s))) (Ok v)) /\
    (forall s,
       k2 (Raise TimeoutError) s =
         Done (add_semaphore 1 (with_metrics (add_current_processing (-1))
                 (with_metrics incr_total_errors
                    (with_metrics incr_total_timeouts s))))
           (Raise (http_error_of TimeoutError))) /\
    (forall e s,
       e <> TimeoutError -> is_Exception e = true ->
       k2 (Raise e) s =
         Done (add_semaphore 1 (with_metrics (add_current_processing (-1))
                 (with_metrics incr_total_errors s)))
           (Raise (http_error_of e))) /\
    (forall s,
       k2 (Raise CancelledError) s =
         Done (add_semaphore 1 (with_metrics (add_current_processing (-1)) s))
           (Raise CancelledError)).
Proof.
  unfold_coro.
  destruct disk_usage as [free|e]; cbn;
    [destruct (Qltb _ _); cbn | destruct e; cbn];
    try discriminate;
    (destruct (current_queued (metrics g) >=? MAX_QUEUE_SIZE); cbn;
     [discriminate|]);
    intros [= <- <-];
    (split; [reflexivity|]); (split; [reflexivity|]);
    eexists; (split; [intros s; cbn; reflexivity|]);
    repeat split; try reflexivity;
    intros [] s; cbn; intros; try reflexivity; congruence.
Qed.

(** C2.  An admitted execution gives back exactly the permit it took.
    A request served with nothing else on the loop ends, whatever the
    outcome of its job (result, exception or timeout), with the free
    permits, [current_processing] and [current_queued] at their values before
    the call, and it does end when a permit is free.  With other requests
    running in between, a call of [_run_processing] changes neither count
    before it holds a permit, taking the permit costs one permit and adds
    one to [current_processing], and every way the await on the job can end
    (any result or exception, timeout and cancellation included) returns
    one permit and takes one from [current_processing], after which the
    coroutine is finished and cannot release again. *)
Theorem run_processing_slot_restored :
  (forall (req : Request) (deadline_first : bool) (g : State),
     (0 < _semaphore g ->
      exists s' r, run_alone deadline_first (handler req g) = Some (s', r)) /\
     (forall s' r,
        run_alone deadline_first (handler req g) = Some (s', r) ->
        _semaphore s' = _semaphore g /\
        current_processing (metrics s') = current_processing (metrics g) /\
        current_queued (metrics s') = current_queued (metrics g))) /\
  (forall (disk_usage : res Z) (func : Job) (g g1 : State)
          (k : res unit -> State -> Coro bytes),
     _run_processing disk_usage func g = Acquire g1 k ->
     _semaphore g1 = _semaphore g /\
     current_processing (metrics g1) = current_processing (metrics g) /\
     forall s, exists s1 k2,
       k (Ok tt) (add_semaphore (-1) s) = Execute s1 func k2 /\
       _semaphore s1 = _semaphore s - 1 /\
       current_processing (metrics s1) = current_processing (metrics s) + 1 /\
       forall o s2, exists s3 r,
         k2 o s2 = Done s3 r /\
         _semaphore s3 = _semaphore s2 + 1 /\
         current_processing (metrics s3) = current_processing (metrics s2) - 1).
Proof.
  split.
  - intros req df g.
    destruct (handler_good req g)
      as [(g' & r & -> & Hm)|(g' & k & -> & [Hk _] & Hq & Hm)].
    + split; [intros _; do 2 eexists; reflexivity|].
      intros s' r' [= <- <-]. unfold moved in Hm. lia.
    + cbn [run_alone].
      destruct (Hk (add_semaphore (-1) g')) as (g2 & j & k2 & -> & Hj & Hk2 & Hm2).
      cbn [run_alone].
      assert (Hw : moved 0 0 0 g2 (fst (wait_for df j g2))).
      { unfold wait_for. destruct df; [apply moved_refl|].
        pose proof (Hj g2) as Hg. destruct (j g2) as [g3 [v|e|]]; exact Hg. }
      destruct (wait_for df j g2) as [g3 o]. cbn [fst] in Hw.
      destruct (Hk2 o g3) as (g4 & r & -> & Hm4). cbn [run_alone].
      unfold moved in *. cbn in *. split.
      * intros Hfree. destruct (0 <? _semaphore g') eqn:E; [|lia].
        do 2 eexists; reflexivity.
      * intros s' r'. destruct (0 <? _semaphore g'); [|discriminate].
        intros [= <- <-]. lia.
  - intros disk_usage func g g1 k Hrun.
    destruct (run_processing_anatomy _ _ _ _ _ Hrun)
      as (-> & _ & k2 & Hok & Hv & Ht & He & Hc).
    split; [reflexivity|]. split; [reflexivity|].
    intros s. do 2 eexists. split; [apply Hok|]. cbn.
    split; [lia|]. split; [lia|].
    intros [v|e] s2.
    + do 2 eexists. split; [apply Hv|]. cbn. lia.
    + destruct e.
      * do 2 eexists. split; [apply He; [discriminate|reflexivity]|]. cbn. lia.
      * do 2 eexists. split; [apply Ht|]. cbn. lia.
      * do 2 eexists. split; [apply He; [discriminate|reflexivity]|]. cbn. lia.
      * do 2 eexists. split; [apply Hc|]. cbn. lia.
Qed.


(** C10.  The call counts itself in [total_requests] before it queues.
    From there, an execution that times out increments [total_timeouts] and
    [total_errors] (and no other counter), one that succeeds increments
    [total_success] only; and no step of the service, whatever the
    interleaving, ever lowers one of the five counters. *)
Theorem counters_only_grow :
  (forall disk_usage func g g1 k,
     _run_processing disk_usage func g = Acquire g1 k ->
     total_requests (metrics g1) = total_requests (metrics g) + 1 /\
     forall s, exists s1 k2,
       k (Ok tt) s = Execute s1 func k2 /\
       (forall s2, exists s3 r,
          k2 (Raise TimeoutError) s2 = Done s3 r /\
          total_timeouts (metrics s3) = total_timeouts (metrics s2) + 1 /\
          total_errors (metrics s3) = total_errors (metrics s2) + 1 /\
          total_success (metrics s3) = total_success (metrics s2) /\
          total_requests (metrics s3) = total_requests (metrics s2) /\
          total_rejected (metrics s3) = total_rejected (metrics s2)) /\
       (forall v s2, exists s3,
          k2 (Ok v) s2 = Done s3 (Ok v) /\
          total_success (metrics s3) = total_success (metrics s2) + 1 /\
          total_errors (metrics s3) = total_errors (metrics s2) /\
          total_timeouts (metrics s3) = total_timeouts (metrics s2) /\
          total_requests (metrics s3) = total_requests (metrics s2) /\
          total_rejected (metrics s3) = total_rejected (metrics s2))) /\
  (forall w w', reachable w -> step w w' ->
     counters_le (globals w) (globals w')).
Proof.
  split.
  - intros disk_usage func g g1 k Hrun.
    destruct (run_processing_anatomy _ _ _ _ _ Hrun)
      as (-> & _ & k2 & Hok & Hv & Ht & He & Hc).
    split; [reflexivity|].
    intros s. do 2 eexists. split; [apply Hok|]. split.
    + intros s2. do 2 eexists. split; [apply Ht|]. cbn. repeat split; lia.
    + intros v s2. eexists. split; [apply Hv|]. cbn. repeat split; lia.
  - intros w w' Hr Hs. apply (step_sound w w'); [|assumption].
    apply reachable_Inv, Hr.
Qed.

Lemma verdict_of_map {A B : Type} (f : A -> B) (c : Coro A) :
  verdict_of (bindC c (fun x => ret (f x))) = verdict_of c.
Proof. destruct c as [s [a|e]| |]; reflexivity. Qed.

Lemma run_processing_verdict_shutdown disk_usage func s :
  verdict_of (_run_processing disk_usage func (_handle_shutdown s)) =
  verdict_of (_run_processing disk_usage func s).
Proof.
  unfold_coro.
  destruct disk_usage as [free|e]; cbn;
    [destruct (Qltb _ _); cbn | destruct e; cbn];
    try reflexivity;
    destruct (current_queued (metrics s) >=? MAX_QUEUE_SIZE); reflexivity.
Qed.

Lemma blind_job_ret {A : Type} (a : A) : blind_job (retT a).
Proof. intros b1 b2 s1 s2 H. split; [exact H|reflexivity]. Qed.

Lemma blind_job_call {A : Type} (o : outcome A) : blind_job (call o).
Proof. intros b1 b2 s1 s2 H. split; [exact H|reflexivity]. Qed.

Lemma blind_job_bind {A B : Type} (m : T A) (f : A -> T B) :
  blind_job m -> (forall a, blind_job (f a)) -> blind_job (bindT m f).
Proof.
  intros Hm Hf b1 b2 s1 s2 H. unfold bindT.
  destruct (Hm b1 b2 s1 s2 H) as [H1 H2].
  destruct (m s1) as [s1' o1], (m s2) as [s2' o2]. cbn in *. subst o2.
  destruct o1 as [a|e|]; [apply Hf, H1| |]; (split; [exact H1|reflexivity]).
Qed.

Lemma blind_job_stage_times_append stage x :
  blind_job (stage_times_append stage x).
Proof.
  intros b1 b2 [m1 n1 e1] [m2 n2 e2] (Hm & Hn & He1 & He2). cbn in *. subst.
  unfold stage_times_append. cbn.
  destruct (stage_times m2 !! stage); cbn; (split; [|reflexivity]);
    repeat split; reflexivity.
Qed.

Lemma blind_job_processing_times_append x :
  blind_job (processing_times_append x).
Proof.
  intros b1 b2 [m1 n1 e1] [m2 n2 e2] (Hm & Hn & He1 & He2). cbn in *. subst.
  cbn. split; [|reflexivity]. repeat split; reflexivity.
Qed.

Ltac blind_tac :=
  repeat first
    [ apply blind_job_bind; [ | intros ? ]
    | apply blind_job_ret
    | apply blind_job_stage_times_append
    | apply blind_job_processing_times_append
    | apply blind_job_call ].

Lemma blind_remove_bg_do data time : blind_job (remove_bg_do data time).
Proof. unfold remove_bg_do. blind_tac. Qed.

Lemma blind_process_do img bg pad sh wd ht time :
  blind_job (process_do img bg pad sh wd ht time).
Proof. unfold process_do, _to_png_bytes. blind_tac. Qed.

Lemma blind_render_template_do img text bh fs time :
  blind_job (render_template_do img text bh fs time).
Proof. unfold render_template_do, _to_png_bytes. blind_tac. Qed.

Lemma blind_process_full_do img bg pad sh wd ht text bh fs time :
  blind_job (process_full_do img bg pad sh wd ht text bh fs time).
Proof. unfold process_full_do, _to_png_bytes. blind_tac. Qed.

Ltac alike_tac := cbn; repeat split; reflexivity.

Ltac alike_states :=
  let m1 := fresh "m" in let n1 := fresh "n" in let e1 := fresh "e" in
  let m2 := fresh "m" in let n2 := fresh "n" in let e2 := fresh "e" in
  let Hm := fresh in let Hn := fresh in let He1 := fresh in
  let He2 := fresh in
  intros [m1 n1 e1] [m2 n2 e2] (Hm & Hn & He1 & He2); cbn in Hm, Hn, He1, He2;
  subst.

Lemma run_processing_same disk_usage func b1 b2 g1 g2 :
  blind_job func -> alike b1 b2 g1 g2 ->
  same_run b1 b2 (_run_processing disk_usage func g1)
    (_run_processing disk_usage func g2).
Proof.
  intros Hf. revert g1 g2. alike_states. unfold_coro.
  destruct disk_usage as [free|e]; cbn;
    [destruct (Qltb _ _); cbn | destruct e; cbn];
    try (split; [alike_tac|reflexivity]);
    (destruct (current_queued m0 >=? MAX_QUEUE_SIZE); cbn;
     [split; [alike_tac|reflexivity]|]);
    (split; [alike_tac|]);
    intros r b1' b2'; alike_states; destruct r as [[]|e']; cbn;
    try (split; [alike_tac|reflexivity]);
    (split; [alike_tac|]); (split; [reflexivity|]); (split; [exact Hf|]);
    intros r b1'' b2''; alike_states;
    (destruct r as [v|e'']; [|destruct e'']); cbn;
    (split; [alike_tac|reflexivity]).
Qed.

Lemma same_run_map {A B : Type} (f : A -> B) (c1 c2 : Coro A) b1 b2 :
  same_run b1 b2 c1 c2 ->
  same_run b1 b2 (bindC c1 (fun x => ret (f x))) (bindC c2 (fun x => ret (f x))).
Proof.
  revert c2 b1 b2.
  induction c1 as [s1 r1|s1 k1 IH|s1 j1 k1 IH];
    intros [s2 r2|s2 k2|s2 j2 k2] b1 b2 H; cbn in H; try contradiction.
  - destruct H as [Ha <-]. destruct r1; cbn; (split; [exact Ha|reflexivity]).
  - destruct H as [Ha Hk]. cbn. split; [exact Ha|].
    intros r b1' b2' s1' s2' Ha'. apply IH, Hk, Ha'.
  - destruct H as (Ha & Hj & Hb & Hk). cbn.
    split; [exact Ha|]. split; [exact Hj|]. split; [exact Hb|].
    intros r b1' b2' s1' s2' Ha'. apply IH, Hk, Ha'.
Qed.

Lemma handler_same req b1 b2 g1 g2 :
  alike b1 b2 g1 g2 -> same_run b1 b2 (handler req g1) (handler req g2).
Proof.
  intros Ha.
  destruct req; cbn [handler];
    unfold remove_bg_endpoint, process_endpoint, render_template_endpoint,
      process_full_endpoint;
    unfold bind at 1 3;
    destruct (read_image_pure image) as [[p|e] E]; rewrite !E; cbn [bindC];
    try (split; [exact Ha|reflexivity]);
    unfold bind; apply same_run_map, run_processing_same;
    try exact Ha.
  - apply blind_remove_bg_do.
  - apply blind_process_do.
  - apply blind_render_template_do.
  - apply blind_process_full_do.
Qed.

(** C4, as the code has it.  The shutdown handler sets [_shutdown_event],
    which [/health] reports, and nothing else: the metrics and the free
    permits are as before.  No request reads or writes the event: two runs
    of the same request from states that differ in the event only are the
    same at every point, on arrival and at each later resumption, whatever
    the event has become by then (the same refusal, the same wait for a
    permit, the same job, the same answer, the same counters and permits).
    So a request that is waiting or running when the signal comes is
    completed as it would have been, and a request that arrives after the
    signal is admitted as it would have been before. *)
Theorem shutdown_only_sets_event (s : State) (req : Request) :
  _shutdown_event (_handle_shutdown s) = true /\
  health_status (_handle_shutdown s) = "shutting_down" /\
  metrics (_handle_shutdown s) = metrics s /\
  _semaphore (_handle_shutdown s) = _semaphore s /\
  verdict_of (_acquire_slot (_handle_shutdown s)) = verdict_of (_acquire_slot s) /\
  verdict_of (handler req (_handle_shutdown s)) = verdict_of (handler req s) /\
  same_run (_shutdown_event s) true (handler req s)
    (handler req (_handle_shutdown s)) /\
  (forall b1 b2 s1 s2, alike b1 b2 s1 s2 ->
     same_run b1 b2 (handler req s1) (handler req s2)).
Proof.
  split; [reflexivity|]. split; [reflexivity|].
  split; [reflexivity|]. split; [reflexivity|].
  split; [|split; [|split]].
  - unfold_coro. cbn.
    destruct (current_queued (metrics s) >=? MAX_QUEUE_SIZE); reflexivity.
  - destruct req; cbn [handler];
      unfold remove_bg_endpoint, process_endpoint, render_template_endpoint,
        process_full_endpoint;
      unfold bind at 1 3;
      destruct (read_image_pure image) as [[p|e] E]; rewrite !E; cbn [bindC];
      try reflexivity;
      unfold bind; rewrite !verdict_of_map;
      apply run_processing_verdict_shutdown.
  - apply handler_same. repeat split; reflexivity.
  - intros b1 b2 s1 s2. apply handler_same.
Qed.

Ltac timing_tac :=
  repeat match goal with
  | H : stage_times (metrics ?s) !! ?key = Some _
    |- context [stage_times (metrics ?s) !! ?key] => rewrite H
  | |- context [(<[?a := ?x]> ?m) !! ?a] => rewrite (lookup_insert_eq m a x)
  | |- context [(<[?a := ?x]> ?m) !! ?b] =>
      rewrite (lookup_insert_ne m a b x) by discriminate
  | |- _ => progress cbn [fst snd metrics stage_times processing_times
                            with_metrics set_stage_times set_processing_times]
  end.

(** C5, as the code has it.  In the closures of [/process] and
    [/process-full] the duration of a stage is appended to its deque when,
    and only when, the stage returns: a stage that raises or hangs records
    nothing and ends the run of the pipeline, so no later stage is timed
    either; the overall duration is appended to [processing_times] only
    once every stage has returned. *)
Theorem stage_timing_recorded_on_return
    (pil_img : Image) (background : string) (padding : Q) (shadow : bool)
    (width height : Z) (template_text : string) (bar_height font_size : Z)
    (time : nat -> Q) (s : State) (d1 d2 d3 : list Q) :
  stage_times (metrics s) !! "bg_removal" = Some d1 ->
  stage_times (metrics s) !! "processing" = Some d2 ->
  stage_times (metrics s) !! "template" = Some d3 ->
  (let s' := fst (process_full_do pil_img background padding shadow width
                    height template_text bar_height font_size time s) in
   match remove_background_pil pil_img with
   | Returns fg =>
       stage_times (metrics s') !! "bg_removal" =
         Some (deque_append (time 1%nat - time 0%nat)%Q d1) /\
       match process_image fg background padding shadow (width, height) with
       | Returns processed =>
           stage_times (metrics s') !! "processing" =
             Some (deque_append (time 2%nat - time 1%nat)%Q d2) /\
           match render_template processed template_text bar_height font_size with
           | Returns _ =>
               stage_times (metrics s') !! "template" =
                 Some (deque_append (time 3%nat - time 2%nat)%Q d3) /\
               processing_times (metrics s') =
                 deque_append (time 3%nat - time 0%nat)%Q
                   (processing_times (metrics s))
           | _ =>
               stage_times (metrics s') !! "template" = Some d3 /\
               processing_times (metrics s') = processing_times (metrics s)
           end
       | _ =>
           stage_times (metrics s') !! "processing" = Some d2 /\
           stage_times (metrics s') !! "template" = Some d3 /\
           processing_times (metrics s') = processing_times (metrics s)
       end
   | _ => s' = s
   end) /\
  (let s' := fst (process_do pil_img background padding shadow width height
                    time s) in
   match remove_background_pil pil_img with
   | Returns fg =>
       stage_times (metrics s') !! "bg_removal" =
         Some (deque_append (time 1%nat - time 0%nat)%Q d1) /\
       match process_image fg background padding shadow (width, height) with
       | Returns _ =>
           stage_times (metrics s') !! "processing" =
             Some (deque_append (time 2%nat - time 1%nat)%Q d2) /\
           processing_times (metrics s') =
             deque_append (time 2%nat - time 0%nat)%Q
               (processing_times (metrics s))
       | _ =>
           stage_times (metrics s') !! "processing" = Some d2 /\
           processing_times (metrics s') = processing_times (metrics s)
       end
   | _ => s' = s
   end).
Proof.
  intros H1 H2 H3. split.
  - unfold process_full_do, process_do, _to_png_bytes, bindT, call, retT,
      stage_times_append, processing_times_append.
    destruct (remove_background_pil pil_img) as [fg|e|]; try reflexivity.
    timing_tac.
    destruct (process_image fg background padding shadow (width, height))
      as [processed|e|]; timing_tac; try (repeat split; reflexivity).
    destruct (render_template processed template_text bar_height font_size)
      as [result|e|]; timing_tac; try (repeat split; reflexivity).
  - unfold process_full_do, process_do, _to_png_bytes, bindT, call, retT,
      stage_times_append, processing_times_append.
    destruct (remove_background_pil pil_img) as [fg|e|]; try reflexivity.
    timing_tac.
    destruct (process_image fg background padding shadow (width, height))
      as [result|e|]; timing_tac; try (repeat split; reflexivity).
Qed.

(** *** Further invariants of the event loop *)

Lemma deque_append_length x d :
  Z.of_nat (length d) <= maxlen ->
  Z.of_nat (length (deque_append x d)) <= maxlen.
Proof.
  intros H. unfold deque_append.
  destruct (Z.of_nat (length d) <? maxlen) eqn:E.
  - rewrite length_app. simpl. lia.
  - destruct d as [|y d]; simpl in *; [unfold maxlen; lia|].
    rewrite length_app. simpl. lia.
Qed.

Lemma keeps_refl g : keeps g g.
Proof. unfold keeps. split; [tauto|]. split; [tauto|]. lia. Qed.

Lemma keeps_trans g1 g2 g3 : keeps g1 g2 -> keeps g2 g3 -> keeps g1 g3.
Proof.
  unfold keeps. intros (A1 & B1 & C1 & D1) (A2 & B2 & C2 & D2).
  split; [tauto|]. split; [tauto|]. lia.
Qed.

Ltac keeps_tac :=
  unfold keeps, unaccounted, timing_ok; cbn;
  split; [tauto|split; [tauto|lia]].

Lemma keeping_thread_ret {A : Type} (a : A) : keeping_thread (retT a).
Proof. intros g. apply keeps_refl. Qed.

Lemma keeping_thread_call {A : Type} (o : outcome A) : keeping_thread (call o).
Proof. intros g. apply keeps_refl. Qed.

Lemma keeping_thread_bind {A B : Type} (m : T A) (f : A -> T B) :
  keeping_thread m -> (forall a, keeping_thread (f a)) ->
  keeping_thread (bindT m f).
Proof.
  intros Hm Hf g. unfold bindT. specialize (Hm g).
  destruct (m g) as [g1 [a|e|]]; cbn in *; trivial.
  eapply keeps_trans; [exact Hm|apply Hf].
Qed.

Lemma keeping_thread_stage_times_append stage x :
  keeping_thread (stage_times_append stage x).
Proof.
  intros g. unfold stage_times_append.
  destruct (stage_times (metrics g) !! stage) as [d|] eqn:E;
    [|apply keeps_refl].
  unfold keeps, unaccounted, timing_ok, set_stage_times. cbn.
  split; [|split; [tauto|lia]].
  intros (Hkeys & Hlen & Hpt). split; [|split; [|exact Hpt]].
  - intros stage' Hin. destruct (decide (stage = stage')) as [->|Hne].
    + rewrite lookup_insert_eq. eauto.
    + rewrite lookup_insert_ne by assumption. apply Hkeys; assumption.
  - intros stage' d'. destruct (decide (stage = stage')) as [->|Hne].
    + rewrite lookup_insert_eq. intros [= <-].
      apply deque_append_length. eapply Hlen, E.
    + rewrite lookup_insert_ne by assumption. apply Hlen.
Qed.

Lemma keeping_thread_processing_times_append x :
  keeping_thread (processing_times_append x).
Proof.
  intros g.
  unfold keeps, unaccounted, timing_ok, processing_times_append,
    set_processing_times.
  cbn. split; [|split; [tauto|lia]].
  intros (Hkeys & Hlen & Hpt). split; [exact Hkeys|split; [exact Hlen|]].
  apply deque_append_length, Hpt.
Qed.

Create HintDb keeping discriminated.
#[local] Hint Resolve keeping_thread_ret keeping_thread_call
  keeping_thread_stage_times_append keeping_thread_processing_times_append
  : keeping.

Ltac keeping_thread_tac :=
  repeat first
    [ apply keeping_thread_bind; [ | intros ? ]
    | solve [ auto with keeping ]
    | apply keeping_thread_call ].

Lemma keeping_remove_bg_do data time : keeping_thread (remove_bg_do data time).
Proof. unfold remove_bg_do. keeping_thread_tac. Qed.

Lemma keeping_process_do img bg pad sh wd ht time :
  keeping_thread (process_do img bg pad sh wd ht time).
Proof. unfold process_do, _to_png_bytes. keeping_thread_tac. Qed.

Lemma keeping_render_template_do img text bh fs time :
  keeping_thread (render_template_do img text bh fs time).
Proof. unfold render_template_do, _to_png_bytes. keeping_thread_tac. Qed.

Lemma keeping_process_full_do img bg pad sh wd ht text bh fs time :
  keeping_thread (process_full_do img bg pad sh wd ht text bh fs time).
Proof. unfold process_full_do, _to_png_bytes. keeping_thread_tac. Qed.

Ltac kept_tac := do 2 eexists; split; [reflexivity | keeps_tac].

Lemma run_processing_keeping disk_usage func g :
  keeping_thread func -> keeping_call g (_run_processing disk_usage func g).
Proof.
  intros Hf. unfold_coro.
  destruct disk_usage as [free|e]; cbn;
    [destruct (Qltb _ _); cbn | destruct e; cbn];
    try (left; kept_tac);
    (destruct (current_queued (metrics g) >=? MAX_QUEUE_SIZE) eqn:E; cbn;
     [left; kept_tac|]);
    right; do 2 eexists; (split; [reflexivity|]);
    (split; [|keeps_tac]);
    (split;
     [ intros s; cbn; do 3 eexists; split; [reflexivity|];
       split; [exact Hf|]; split; [|keeps_tac];
       intros [v|e'] s'; [|destruct e']; cbn; kept_tac
     | intros e' s; cbn; kept_tac ]).
Qed.

Lemma keeping_run_map {A B : Type} (f : A -> B) k :
  keeping_run k ->
  keeping_run (fun r s => bindC (k r s) (fun x => ret (f x))).
Proof.
  intros H o g. destruct (H o g) as (g' & r & -> & Hm).
  destruct r; cbn; do 2 eexists; (split; [reflexivity|exact Hm]).
Qed.

Lemma keeping_wait_map {A B : Type} (f : A -> B) k :
  keeping_wait k ->
  keeping_wait (fun r s => bindC (k r s) (fun x => ret (f x))).
Proof.
  intros [H1 H2]. split.
  - intros g. destruct (H1 g) as (g' & j & k2 & -> & Hj & Hk & Hm).
    cbn. do 3 eexists. split; [reflexivity|].
    split; [exact Hj|]. split; [|exact Hm]. apply keeping_run_map, Hk.
  - intros e g. destruct (H2 e g) as (g' & r & -> & Hm).
    destruct r; cbn; do 2 eexists; (split; [reflexivity|exact Hm]).
Qed.

Lemma keeping_call_map {A B : Type} (f : A -> B) g c :
  keeping_call g c -> keeping_call g (bindC c (fun x => ret (f x))).
Proof.
  intros [(g' & r & -> & Hm)|(g' & k & -> & Hk & Hm)].
  - left. destruct r; cbn; do 2 eexists; (split; [reflexivity|exact Hm]).
  - right. cbn. do 2 eexists. split; [reflexivity|].
    split; [apply keeping_wait_map, Hk|assumption].
Qed.

Lemma handler_keeping req g : keeping_call g (handler req g).
Proof.
  destruct req; cbn [handler];
    unfold remove_bg_endpoint, process_endpoint, render_template_endpoint,
      process_full_endpoint;
    unfold bind at 1;
    destruct (read_image_pure image) as [[p|e] ->];
    cbn [bindC];
    try (left; do 2 eexists; split; [reflexivity|apply keeps_refl]);
    unfold bind at 1; apply keeping_call_map, run_processing_keeping.
  - apply keeping_remove_bg_do.
  - apply keeping_process_do.
  - apply keeping_render_template_do.
  - apply keeping_process_full_do.
Qed.

Lemma keeps_add_semaphore n g : keeps g (add_semaphore n g).
Proof. keeps_tac. Qed.

Lemma lands_keeping_resume {k g g' t} :
  keeping_wait k -> lands (k (Ok tt) g) g' t -> keeping_task t /\ keeps g g'.
Proof.
  intros [Hk _] Hl. destruct (Hk g) as (g2 & j & k2 & Heq & Hj & Hk2 & Hm).
  rewrite Heq in Hl. inversion Hl; subst. cbn.
  split; [split; assumption|assumption].
Qed.

Lemma lands_keeping_abandon {k e g g' t} :
  keeping_wait k -> lands (k (Raise e) g) g' t -> keeping_task t /\ keeps g g'.
Proof.
  intros [_ Hk] Hl. destruct (Hk e g) as (g2 & r & Heq & Hm).
  rewrite Heq in Hl. inversion Hl; subst. cbn. split; [exact I|assumption].
Qed.

Lemma lands_keeping_exit {k o g g' t} :
  keeping_run k -> lands (k o g) g' t -> keeping_task t /\ keeps g g'.
Proof.
  intros Hk Hl. destruct (Hk o g) as (g2 & r & Heq & Hm).
  rewrite Heq in Hl. inversion Hl; subst. cbn. split; [exact I|assumption].
Qed.

Lemma lands_keeping_call g c g' t :
  keeping_call g c -> lands c g' t -> keeping_task t /\ keeps g g'.
Proof.
  intros [(g1 & r & -> & Hm)|(g1 & k & -> & Hk & Hm)] Hl.
  - inversion Hl; subst. cbn. split; [exact I|assumption].
  - inversion Hl; subst.
    + match goal with H : lands (k _ _) _ _ |- _ =>
        destruct (lands_keeping_resume Hk H) as [Ht Hm2] end.
      split; [assumption|].
      eapply keeps_trans; [exact Hm|].
      eapply keeps_trans; [apply keeps_add_semaphore|exact Hm2].
    + cbn. split; assumption.
Qed.

Lemma step_keeping w w' :
  Keeping w -> step w w' -> Keeping w' /\ keeps (globals w) (globals w').
Proof.
  intros [Ht Hb] Hstep.
  destruct Hstep as
    [ w req g t Hl | w i k Hi Hfree | w i k g t Hi Hl | w i k g t Hi Hl
    | w i k g t Hi Hl | w i j k g1 v g t Hi Hj Hl | w i j k g1 e g t Hi Hj Hl
    | w i j k g t Hi Hl | w i j k g t Hi Hl | w n j Hn | w ];
    unfold Keeping; cbn [globals tasks background].
  - destruct (lands_keeping_call _ _ _ _ (handler_keeping req (globals w)) Hl)
      as [Hok Hm].
    split; [split; [|assumption]|assumption].
    apply Forall_app. split; [assumption|]. constructor; [assumption|constructor].
  - pose proof (Forall_lookup_1 _ _ _ _ Ht Hi) as Hk.
    split; [split; [|assumption]|apply keeps_add_semaphore].
    apply Forall_insert; assumption.
  - pose proof (Forall_lookup_1 _ _ _ _ Ht Hi) as Hk.
    destruct (lands_keeping_resume Hk Hl) as [Hok Hm].
    split; [split; [apply Forall_insert|]; assumption|assumption].
  - pose proof (Forall_lookup_1 _ _ _ _ Ht Hi) as Hk.
    destruct (lands_keeping_abandon Hk Hl) as [Hok Hm].
    split; [split; [apply Forall_insert|]; assumption|assumption].
  - pose proof (Forall_lookup_1 _ _ _ _ Ht Hi) as Hk.
    destruct (lands_keeping_abandon Hk Hl) as [Hok Hm].
    split; [split; [apply Forall_insert|]; assumption|].
    eapply keeps_trans; [apply (keeps_add_semaphore 1)|exact Hm].
  - pose proof (Forall_lookup_1 _ _ _ _ Ht Hi) as [Hgj Hk].
    destruct (lands_keeping_exit Hk Hl) as [Hok Hm].
    pose proof (Hgj (globals w)) as Hmj. rewrite Hj in Hmj. cbn in Hmj.
    split; [split; [apply Forall_insert|]; assumption|].
    eapply keeps_trans; eassumption.
  - pose proof (Forall_lookup_1 _ _ _ _ Ht Hi) as [Hgj Hk].
    destruct (lands_keeping_exit Hk Hl) as [Hok Hm].
    pose proof (Hgj (globals w)) as Hmj. rewrite Hj in Hmj. cbn in Hmj.
    split; [split; [apply Forall_insert|]; assumption|].
    eapply keeps_trans; eassumption.
  - pose proof (Forall_lookup_1 _ _ _ _ Ht Hi) as [Hgj Hk].
    destruct (lands_keeping_exit Hk Hl) as [Hok Hm].
    split; [split; [apply Forall_insert|constructor]; assumption|assumption].
  - pose proof (Forall_lookup_1 _ _ _ _ Ht Hi) as [Hgj Hk].
    destruct (lands_keeping_exit Hk Hl) as [Hok Hm].
    split; [split; [apply Forall_insert|constructor]; assumption|assumption].
  - pose proof (Forall_lookup_1 _ _ _ _ Hb Hn) as Hgj.
    split; [split; [|apply Forall_delete]; assumption|apply Hgj].
  - split; [split; assumption|]. unfold _handle_shutdown. keeps_tac.
Qed.

Lemma steps_keeping w w' :
  Keeping w -> rtc step w w' -> Keeping w' /\ keeps (globals w) (globals w').
Proof.
  intros HI Hs. induction Hs as [w|w1 w2 w3 H12 _ IH].
  - split; [assumption|apply keeps_refl].
  - destruct (step_keeping _ _ HI H12) as [HI2 Hc].
    destruct (IH HI2) as [HI3 Hc'].
    split; [assumption|]. eapply keeps_trans; eassumption.
Qed.

Lemma start_Keeping g : Keeping (start g).
Proof. split; constructor. Qed.

Lemma reachable_Keeping w : reachable w -> Keeping w.
Proof.
  intros (g & _ & Hs). apply (steps_keeping (start g)); [|assumption].
  apply start_Keeping.
Qed.

Lemma start_timing_ok g : lifespan = Ok g -> timing_ok (metrics g).
Proof.
  unfold lifespan, Semaphore.
  destruct (MAX_CONCURRENT <? 0); [discriminate|]. intros [= <-].
  unfold timing_ok, stage_names. cbn. split; [|split; [|unfold maxlen; lia]].
  - intros stage [<-|[<-|[<-|[]]]]; vm_compute; eauto.
  - intros stage d H.
    repeat (apply lookup_insert_Some in H; destruct H as [[_ <-]|[_ H]];
            [unfold maxlen; simpl; lia|]).
    rewrite lookup_empty in H. discriminate.
Qed.

Lemma reachable_kept w :
  reachable w ->
  timing_ok (metrics (globals w)) /\
  0 <= unaccounted (metrics (globals w)) /\
  total_timeouts (metrics (globals w)) <= total_errors (metrics (globals w)).
Proof.
  intros (g & Hg & Hs).
  destruct (steps_keeping (start g) w (start_Keeping g) Hs)
    as [_ (Ht & _ & Hu & He)].
  split; [apply Ht, start_timing_ok, Hg|].
  revert Hu He. unfold lifespan in Hg.
  destruct (Semaphore MAX_CONCURRENT); [|discriminate].
  injection Hg as <-. unfold unaccounted. cbn. lia.
Qed.

Lemma total_nonneg f (l : list Task) : (forall t, 0 <= f t) -> 0 <= total f l.
Proof.
  intros H. unfold total. induction l as [|t l IH]; simpl; [lia|].
  specialize (H t). lia.
Qed.

Lemma reachable_counters_nonneg w :
  reachable w ->
  0 <= total_requests (metrics (globals w)) /\
  0 <= total_success (metrics (globals w)) /\
  0 <= total_errors (metrics (globals w)) /\
  0 <= total_timeouts (metrics (globals w)) /\
  0 <= total_rejected (metrics (globals w)).
Proof.
  intros (g & Hg & Hs).
  destruct (steps_sound (start g) w (start_Inv g Hg) Hs) as [_ Hc].
  revert Hc. unfold lifespan in Hg.
  destruct (Semaphore MAX_CONCURRENT); [|discriminate].
  injection Hg as <-. unfold counters_le. cbn. lia.
Qed.

Lemma total_finished f (l : list Task) :
  Forall (fun t => exists r, t = Finished r) l ->
  (forall r, f (Finished r) = 0) -> total f l = 0.
Proof.
  intros Hq Hf. unfold total.
  induction Hq as [|t l [r ->] _ IH]; simpl; [reflexivity|].
  rewrite IH, Hf. reflexivity.
Qed.

Lemma serve_steps req w : rtc step w (serve req w).
Proof.
  unfold serve.
  pose proof (lands_advance (handler req (globals w))) as Hl.
  destruct (advance (handler req (globals w))) as [g1 t]. cbn [fst snd] in Hl.
  pose proof (step_request w req g1 t Hl) as Harrive.
  destruct t as [k|k|j k|r]; try (apply rtc_once; exact Harrive).
  destruct (j g1) as [g2 o] eqn:Ej.
  destruct o as [v|e|]; try (apply rtc_once; exact Harrive).
  pose proof (lands_advance (k (Ok v) g2)) as Hl2.
  destruct (advance (k (Ok v) g2)) as [g3 t']. cbn [fst snd] in Hl2.
  eapply rtc_l; [exact Harrive|]. apply rtc_once.
  replace (tasks w ++ [t']) with (<[length (tasks w) := t']> (tasks w ++ [Running j k])).
  - eapply (step_job_returns
              {| globals := g1; tasks := tasks w ++ [Running j k];
                 background := background w |} (length (tasks w)) j k g2 v g3 t').
    + cbn. apply list_lookup_middle. reflexivity.
    + exact Ej.
    + exact Hl2.
  - rewrite insert_app_r_alt by lia. rewrite Nat.sub_diag. reflexivity.
Qed.

Lemma serve_reachable req w : reachable w -> reachable (serve req w).
Proof.
  intros (g & Hg & Hs). exists g. split; [exact Hg|].
  etrans; [exact Hs|apply serve_steps].
Qed.

Lemma serve_many_reachable req n w :
  reachable w -> reachable (Nat.iter n (serve req) w).
Proof.
  intros H. induction n as [|n IH]; [exact H|]. cbn. apply serve_reachable, IH.
Qed.

(** *** What holds in every world the service can reach *)

(** X1.  In every reachable world each of the three stage names
    ([bg_removal], [processing], [template]) still has its deque in
    [metrics.stage_times]: the [stage_times[...].append] of a closure finds
    its key and never raises [KeyError]. *)
Theorem stage_deque_always_found w stage x :
  reachable w -> In stage stage_names ->
  snd (stage_times_append stage x (globals w)) = Returns tt.
Proof.
  intros Hr Hin. destruct (reachable_kept w Hr) as [(Hkeys & _) _].
  destruct (Hkeys stage Hin) as [d Hd].
  unfold stage_times_append. rewrite Hd. reflexivity.
Qed.

(** X2.  In every reachable world no timing deque holds more than 1000
    samples, whatever the number of requests served. *)
Theorem timing_deques_bounded w :
  reachable w ->
  Z.of_nat (length (processing_times (metrics (globals w)))) <= 1000 /\
  forall stage d,
    stage_times (metrics (globals w)) !! stage = Some d ->
    Z.of_nat (length d) <= 1000.
Proof.
  intros Hr. destruct (reachable_kept w Hr) as [(_ & Hlen & Hpt) _].
  split; [exact Hpt|exact Hlen].
Qed.

(** X3.  In every reachable world the requests answered (success, error,
    rejected) plus those waiting and running never exceed
    [total_requests], and every timeout is also counted as an error. *)
Theorem requests_accounted w :
  reachable w ->
  let m := metrics (globals w) in
  total_success m + total_errors m + total_rejected m
    + current_queued m + current_processing m <= total_requests m /\
  total_timeouts m <= total_errors m.
Proof.
  intros Hr m. destruct (reachable_kept w Hr) as (_ & Hu & He).
  unfold unaccounted in Hu. subst m. split; lia.
Qed.

(** X4.  In every reachable world [error_rate] returns a proportion: it
    does not fault and its value is between 0 and 1, given that rounding
    to a double keeps a value between 0 and 1 there (0 and 1 are doubles
    and the rounding is monotone). *)
Theorem error_rate_is_proportion (fl : Q -> Q) w :
  (forall q, (0 <= q /\ q <= 1)%Q -> (0 <= fl q /\ fl q <= 1)%Q) ->
  reachable w ->
  exists q, error_rate fl (metrics (globals w)) = Ok q /\
            (0 <= q /\ q <= 1)%Q.
Proof.
  intros Hfl Hr. destruct (reachable_kept w Hr) as (_ & Hu & _).
  destruct (reachable_counters_nonneg w Hr) as (Hq & Hs & He & _ & Hj).
  destruct (reachable_Inv w Hr) as (_ & _ & Hp & Hw & _).
  assert (0 <= current_processing (metrics (globals w)))
    by (rewrite Hp; apply total_nonneg; intros []; cbn; lia).
  assert (0 <= current_queued (metrics (globals w)))
    by (rewrite Hw; apply total_nonneg; intros []; cbn; lia).
  unfold unaccounted in Hu. unfold error_rate.
  destruct (total_requests (metrics (globals w)) =? 0) eqn:E.
  - exists 0%Q. split; [reflexivity|]. split; [apply Qle_refl|discriminate].
  - apply Z.eqb_neq in E. rewrite (truediv_nonzero fl _ _ E).
    eexists. split; [reflexivity|]. apply Hfl.
    assert (Hpos : (0 < inject_Z (total_requests (metrics (globals w))))%Q)
      by (change 0%Q with (inject_Z 0); rewrite <- Zlt_Qlt; lia).
    split.
    + apply Qle_shift_div_l; [exact Hpos|].
      rewrite Qmult_0_l. change 0%Q with (inject_Z 0).
      rewrite <- Zle_Qle. exact He.
    + apply Qle_shift_div_r; [exact Hpos|].
      rewrite Qmult_1_l. rewrite <- Zle_Qle. lia.
Qed.

(** X5.  Nothing clears the shutdown event: once [/health] has reported
    [shutting_down], it reports it in every later world. *)
Theorem shutting_down_is_final w w' :
  reachable w -> rtc step w w' ->
  health_status (globals w) = "shutting_down" ->
  health_status (globals w') = "shutting_down".
Proof.
  intros Hr Hs.
  destruct (steps_keeping w w' (reachable_Keeping w Hr) Hs)
    as [_ (_ & Hflag & _)].
  unfold health_status.
  destruct (_shutdown_event (globals w)); [|discriminate].
  rewrite (Hflag eq_refl). reflexivity.
Qed.

(** X6.  When every request has been answered, whatever way each one
    ended, all the permits are back and both gauges read zero. *)
Theorem quiescent_all_permits_free w :
  reachable w -> quiescent w ->
  _semaphore (globals w) = MAX_CONCURRENT /\
  current_processing (metrics (globals w)) = 0 /\
  current_queued (metrics (globals w)) = 0.
Proof.
  intros Hr Hq. destruct (reachable_Inv w Hr) as (_ & Hh & Hp & Hw & _).
  unfold held_permits, waiting_count in *.
  rewrite (total_finished holds_permit) in Hh by (assumption || reflexivity).
  rewrite (total_finished is_running) in Hp by (assumption || reflexivity).
  rewrite (total_finished is_queued) in Hw by (assumption || reflexivity).
  repeat split; lia.
Qed.

(** *** The answers of a request served alone *)

Lemma run_alone_map {A B : Type} (f : A -> B) df (c : Coro A) :
  run_alone df (bindC c (fun x => ret (f x))) =
  match run_alone df c with
  | Some (s, Ok a) => Some (s, Ok (f a))
  | Some (s, Raise e) => Some (s, Raise e)
  | None => None
  end.
Proof.
  induction c as [s [a|e]|s k IH|s j k IH]; cbn; try reflexivity.
  - destruct (0 <? _semaphore s); [apply IH|reflexivity].
  - destruct (wait_for df j s) as [s' o]. apply IH.
Qed.













(** *** The disk guard *)

Lemma free_mb_below free :
  (inject_Z free / inject_Z (1024 * 1024) < inject_Z MIN_DISK_MB)%Q <->
  free < MIN_DISK_MB * 1048576.
Proof.
  unfold Qlt, Qdiv, Qmult, Qinv, inject_Z. simpl. lia.
Qed.

Lemma check_disk_space_enough free s :
  MIN_DISK_MB * 1048576 <= free ->
  _check_disk_space (Ok free) s = Done s (Ok tt).
Proof.
  intros H. unfold _check_disk_space, try_except, lift, bind, raise, ret. cbn.
  destruct (Qltb _ _) eqn:E; [|reflexivity].
  apply Qltb_lt in E. apply (proj1 (free_mb_below free)) in E. exfalso. lia.
Qed.

(** X8.  On a disk with less than 2^53 bytes free (where the float
    quotient by 1024 * 1024 is exact), the disk guard lets a request
    through exactly when at least [MIN_DISK_MB * 1048576] bytes are free:
    the bound itself passes. *)
Theorem disk_guard_threshold free s :
  0 <= free < 2 ^ 53 ->
  _check_disk_space (Ok free) s = Done s (Ok tt) <->
  MIN_DISK_MB * 1048576 <= free.
Proof.
  intros _. split; [|apply check_disk_space_enough].
  unfold _check_disk_space, try_except, lift, bind, raise, ret. cbn.
  destruct (Qltb _ _) eqn:E; cbn; [discriminate|]. intros _.
  destruct (Z_lt_le_dec free (MIN_DISK_MB * 1048576)) as [Hlt|Hle];
    [|exact Hle].
  apply (proj2 (free_mb_below free)) in Hlt. apply Qltb_lt in Hlt. congruence.
Qed.

(** X9.  The guard fails open: when the probe of the disk itself raises
    an ordinary exception, [_run_processing] goes on exactly as with
    enough free space. *)
Theorem disk_probe_failure_ignored e free func s :
  ordinary e -> MIN_DISK_MB * 1048576 <= free ->
  _run_processing (Raise e) func s = _run_processing (Ok free) func s.
Proof.
  intros He Hfree.
  assert (Hopen : _check_disk_space (Raise e) s = Done s (Ok tt))
    by (destruct e; cbn in He; try contradiction; reflexivity).
  unfold _run_processing, bind.
  rewrite Hopen, (check_disk_space_enough free s Hfree). reflexivity.
Qed.

(** *** The averages of [Metrics] *)

(** X10.  [avg_time()] never faults: for an empty [processing_times] it
    returns 0 without reaching the division, which would raise
    [ZeroDivisionError] there, and otherwise it returns the sum of the
    samples divided by their number, which is not zero. *)
Theorem avg_time_never_faults (fsum : list Q -> Q) (fl : Q -> Q)
    (self : Metrics) :
  (processing_times self = [] ->
   avg_time fsum fl self = Ok 0%Q /\
   truediv fl (fsum (processing_times self)) (lenQ (processing_times self))
     = Raise ZeroDivisionError) /\
  (processing_times self <> [] ->
   avg_time fsum fl self =
     Ok (fl (fsum (processing_times self) / lenQ (processing_times self))%Q)).
Proof.
  unfold avg_time. split.
  - intros ->. split; reflexivity.
  - intros Hne. destruct (processing_times self) as [|x d];
      [contradiction|apply truediv_len].
Qed.

(** X11.  [avg_stage(stage)] never faults: it returns 0 for a stage that
    has no deque (the lookup does not raise [KeyError]) and for an empty
    deque (the division is not reached), and otherwise the sum of the
    samples of that stage divided by their number. *)
Theorem avg_stage_never_faults (fsum : list Q -> Q) (fl : Q -> Q)
    (self : Metrics) (stage : string) :
  (stage_times self !! stage = None -> avg_stage fsum fl self stage = Ok 0%Q) /\
  (stage_times self !! stage = Some [] ->
   avg_stage fsum fl self stage = Ok 0%Q /\
   truediv fl (fsum []) (lenQ []) = Raise ZeroDivisionError) /\
  (forall d, stage_times self !! stage = Some d -> d <> [] ->
     avg_stage fsum fl self stage = Ok (fl (fsum d / lenQ d)%Q)).
Proof.
  unfold avg_stage. split; [intros ->; reflexivity|].
  split; [intros ->; split; reflexivity|].
  intros d -> Hne. cbn. destruct d as [|x d]; [contradiction|apply truediv_len].
Qed.

(** *** A request that goes through *)

Lemma read_image_ok data img s :
  data <> [] -> Z.of_nat (length data) <= MAX_IMAGE_SIZE ->
  Image_open_verified data = Ok img ->
  _read_image data s = Done s (Ok (data, img)).
Proof.
  intros Hne Hle Hdec. unfold _read_image, try_except, lift, bind, raise, ret.
  destruct (Z.eqb_spec (Z.of_nat (length data)) 0) as [E0|_];
    [destruct data; [contradiction|cbn [length] in E0; lia]|].
  destruct (Z.gtb_spec (Z.of_nat (length data)) MAX_IMAGE_SIZE) as [E1|_];
    [lia|].
  rewrite Hdec. reflexivity.
Qed.

(** X12.  [/process-full] with a valid upload, enough disk, room in the
    queue and a free permit, when every stage returns: the body is the PNG
    encoding of [render_template] applied to [process_image] applied to
    [remove_background_pil] of the decoded upload, each with its own form
    fields; the request is counted once in [total_requests] and once in
    [total_success], and the permit is back. *)
Theorem process_full_pipeline image img bg pad sh wd ht text bh fs free time g
    fg processed result body d1 d2 d3 :
  image <> [] -> Z.of_nat (length image) <= MAX_IMAGE_SIZE ->
  Image_open_verified image = Ok img ->
  MIN_DISK_MB * 1048576 <= free ->
  current_queued (metrics g) < MAX_QUEUE_SIZE ->
  0 < _semaphore g ->
  stage_times (metrics g) !! "bg_removal" = Some d1 ->
  stage_times (metrics g) !! "processing" = Some d2 ->
  stage_times (metrics g) !! "template" = Some d3 ->
  remove_background_pil img = Returns fg ->
  process_image fg bg pad sh (wd, ht) = Returns processed ->
  render_template processed text bh fs = Returns result ->
  Image_save_png result = Returns body ->
  exists g',
    run_alone false
      (handler (ProcessFull image bg pad sh wd ht text bh fs (Ok free) time) g)
    = Some (g', Ok {| content := body; media_type := "image/png" |}) /\
    total_requests (metrics g') = total_requests (metrics g) + 1 /\
    total_success (metrics g') = total_success (metrics g) + 1 /\
    total_errors (metrics g') = total_errors (metrics g) /\
    _semaphore g' = _semaphore g /\
    current_processing (metrics g') = current_processing (metrics g) /\
    current_queued (metrics g') = current_queued (metrics g).
Proof.
  intros Hne Hle Hdec Hfree Hq Hsem K1 K2 K3 S1 S2 S3 S4.
  cbn [handler]. unfold process_full_endpoint. unfold bind at 1.
  rewrite (read_image_ok image img g Hne Hle Hdec). cbn [bindC snd].
  unfold bind at 1. rewrite run_alone_map.
  unfold _run_processing. unfold bind at 1.
  rewrite (check_disk_space_enough free g Hfree). cbn [bindC].
  unfold_coro. cbn.
  destruct (Z.geb_spec (current_queued (metrics g)) MAX_QUEUE_SIZE) as [E|_];
    [lia|].
  cbn. destruct (Z.ltb_spec 0 (_semaphore g)) as [_|E2]; [|lia]. cbn.
  unfold wait_for, process_full_do, _to_png_bytes, bindT, call, retT,
    stage_times_append, processing_times_append.
  cbn. rewrite S1. cbn. rewrite K1. cbn. rewrite S2. cbn.
  rewrite lookup_insert_ne by discriminate. rewrite K2. cbn. rewrite S3. cbn.
  rewrite !lookup_insert_ne by discriminate. rewrite K3. cbn. rewrite S4. cbn.
  eexists. split; [reflexivity|]. cbn. repeat split; lia.
Qed.

(** X13.  A request with a valid upload that arrives when the disk has
    room and the queue is not full is never turned away.  Wherever the
    arrival comes to rest, the request is counted in [total_requests] and
    not in [total_rejected], and either its job has started, which takes a
    free permit (one permit less, [current_processing] one more,
    [current_queued] as before), or it waits for a permit
    ([current_queued] one more); without a free permit it waits.  With a
    free permit the semaphore may still make it wait. *)
Theorem arrival_admitted req g img free :
  image_of req <> [] ->
  Z.of_nat (length (image_of req)) <= MAX_IMAGE_SIZE ->
  Image_open_verified (image_of req) = Ok img ->
  disk_of req = Ok free -> MIN_DISK_MB * 1048576 <= free ->
  current_queued (metrics g) < MAX_QUEUE_SIZE ->
  (exists g' t, lands (handler req g) g' t) /\
  forall g' t, lands (handler req g) g' t ->
    total_requests (metrics g') = total_requests (metrics g) + 1 /\
    total_rejected (metrics g') = total_rejected (metrics g) /\
    (((exists j k, t = Running j k) /\
      0 < _semaphore g /\
      _semaphore g' = _semaphore g - 1 /\
      current_processing (metrics g') = current_processing (metrics g) + 1 /\
      current_queued (metrics g') = current_queued (metrics g)) \/
     ((exists k, t = Waiting k) /\
      _semaphore g' = _semaphore g /\
      current_processing (metrics g') = current_processing (metrics g) /\
      current_queued (metrics g') = current_queued (metrics g) + 1)).
Proof.
  intros Hne Hle Hdec Hdisk Hfree Hq.
  split; [do 2 eexists; apply lands_advance|].
  intros g' t. remember (handler req g) as c eqn:Ec. intros Hl.
  destruct req; cbn [image_of disk_of handler] in *; subst disk_usage;
    unfold remove_bg_endpoint, process_endpoint, render_template_endpoint,
      process_full_endpoint in Ec;
    unfold bind at 1 in Ec;
    rewrite (read_image_ok image img g Hne Hle Hdec) in Ec;
    cbn [bindC snd fst] in Ec;
    unfold bind at 1 in Ec; unfold _run_processing in Ec;
    unfold bind at 1 in Ec;
    rewrite (check_disk_space_enough free g Hfree) in Ec; cbn [bindC] in Ec;
    revert Ec; unfold_coro; cbn;
    (destruct (Z.geb_spec (current_queued (metrics g)) MAX_QUEUE_SIZE)
       as [E|_]; [lia|]);
    cbn; intros ->;
    (inversion Hl as [| s k g0 t0 Hs Hl2 | s k |]; subst;
     [ cbn in Hs, Hl2; inversion Hl2; subst; cbn;
       split; [lia|]; split; [lia|]; left;
       split; [eauto|repeat split; lia]
     | cbn; split; [lia|]; split; [lia|]; right;
       split; [eauto|repeat split; lia] ]).
Qed.

End Service.

(** ** The properties on the sample deployment *)

Abbreviation demo_handler :=
  (handler Demo.MAX_QUEUE_SIZE Demo.REQUEST_TIMEOUT Demo.MAX_IMAGE_SIZE
     Demo.MIN_DISK_MB Demo.Image Demo.Image_open_verified Demo.Image_save_png
     Demo.remove_background Demo.remove_background_pil Demo.process_image
     Demo.render_template) (only parsing).

Abbreviation demo_reachable :=
  (reachable Demo.MAX_CONCURRENT Demo.MAX_QUEUE_SIZE Demo.REQUEST_TIMEOUT
     Demo.MAX_IMAGE_SIZE Demo.MIN_DISK_MB Demo.Image Demo.Image_open_verified
     Demo.Image_save_png Demo.remove_background Demo.remove_background_pil
     Demo.process_image Demo.render_template) (only parsing).

Abbreviation demo_run_processing :=
  (_run_processing Demo.MAX_QUEUE_SIZE Demo.REQUEST_TIMEOUT Demo.MIN_DISK_MB)
  (only parsing).

(** The world after one request for [/remove-background] has arrived. *)
Abbreviation demo_arrival image :=
  (let c := demo_handler (RemoveBackground image Demo.disk_ok Demo.clock)
              Demo.running in
   {| globals := fst (advance c); tasks := [] ++ [snd (advance c)];
      background := [] |}) (only parsing).

Lemma demo_arrival_reachable image : demo_reachable (demo_arrival image).
Proof.
  exists Demo.running. split; [reflexivity|].
  eapply rtc_l; [|apply rtc_refl].
  apply (step_request _ _ _ _ _ _ _ _ _ _ _ (start Demo.running)
           (RemoveBackground image Demo.disk_ok Demo.clock)).
  apply lands_advance.
Defined.

Lemma slots_and_queue_bounded_witness :
  let w := demo_arrival Demo.png in
  held_permits w = 1 /\ held_permits w <= 2 /\
  current_processing (metrics (globals w)) <= 2 /\ waiting_count w <= 20.
Proof.
  intros w.
  destruct (slots_and_queue_bounded Demo.MAX_CONCURRENT Demo.MAX_QUEUE_SIZE
              Demo.REQUEST_TIMEOUT Demo.MAX_IMAGE_SIZE Demo.MIN_DISK_MB
              Demo.Image Demo.Image_open_verified Demo.Image_save_png
              Demo.remove_background Demo.remove_background_pil
              Demo.process_image Demo.render_template w)
    as (H1 & H2 & H3 & H4 & H5).
  - unfold Demo.MAX_QUEUE_SIZE. lia.
  - apply demo_arrival_reachable.
  - split; [vm_compute; reflexivity|]. repeat split; assumption.
Defined.

Lemma run_processing_slot_restored_witness :
  (exists s' r,
     run_alone false
       (demo_handler (RemoveBackground Demo.failing Demo.disk_ok Demo.clock)
          Demo.running) = Some (s', r) /\
     _semaphore s' = 2 /\
     current_processing (metrics s') = 0 /\
     current_queued (metrics s') = 0) /\
  (exists g1 k s1 k2 s3 r,
     demo_run_processing Demo.disk_ok
       (remove_bg_do Demo.remove_background Demo.hanging Demo.clock)
       Demo.saturated = Acquire g1 k /\
     k (Ok tt) (add_semaphore (-1) Demo.one_freed) =
       Execute s1 (remove_bg_do Demo.remove_background Demo.hanging Demo.clock)
         k2 /\
     _semaphore s1 = 0 /\
     current_processing (metrics s1) = 2 /\
     k2 (Raise TimeoutError) s1 = Done s3 r /\
     _semaphore s3 = _semaphore s1 + 1 /\
     current_processing (metrics s3) = current_processing (metrics s1) - 1).
Proof.
  destruct (run_processing_slot_restored Demo.MAX_QUEUE_SIZE
              Demo.REQUEST_TIMEOUT Demo.MAX_IMAGE_SIZE Demo.MIN_DISK_MB
              Demo.Image Demo.Image_open_verified Demo.Image_save_png
              Demo.remove_background Demo.remove_background_pil
              Demo.process_image Demo.render_template) as [Halone Hshared].
  split.
  - destruct (Halone (RemoveBackground Demo.failing Demo.disk_ok Demo.clock)
                false Demo.running) as [Hends Hsame].
    destruct Hends as (s' & r & E); [simpl; lia|].
    exists s', r. split; [exact E|]. exact (Hsame s' r E).
  - assert (Hrun : exists g1 k,
      demo_run_processing Demo.disk_ok
        (remove_bg_do Demo.remove_background Demo.hanging Demo.clock)
        Demo.saturated = Acquire g1 k).
    { eexists _, _. lazy. reflexivity. }
    destruct Hrun as (g1 & k & Hrun). exists g1, k.
    destruct (Hshared _ _ _ _ _ Hrun) as (_ & _ & Hk).
    destruct (Hk Demo.one_freed) as (s1 & k2 & E1 & Hs1 & Hp1 & Hk2).
    destruct (Hk2 (Raise TimeoutError) s1) as (s3 & r & E3 & Hs3 & Hp3).
    exists s1, k2, s3, r. repeat split; assumption.
Defined.

Lemma acquire_slot_queue_full_witness :
  exists s',
    _acquire_slot Demo.MAX_QUEUE_SIZE Demo.busy =
      Done s' (Raise (HTTPException 503 (ServerBusy 20 20))) /\
    total_rejected (metrics s') = 1 /\
    current_queued (metrics s') = 20 /\
    current_processing (metrics s') = 2 /\
    _semaphore s' = 0.
Proof.
  apply (acquire_slot_queue_full Demo.MAX_QUEUE_SIZE Demo.busy).
  simpl. unfold Demo.MAX_QUEUE_SIZE. lia.
Defined.

Lemma run_processing_low_disk_witness :
  demo_run_processing (Ok Demo.disk_low)
    (remove_bg_do Demo.remove_background Demo.png Demo.clock) Demo.busy =
  Done Demo.busy
    (Raise (HTTPException 503
              (LowDiskSpace (inject_Z Demo.disk_low / inject_Z (1024 * 1024))%Q
                 Demo.MIN_DISK_MB))).
Proof.
  apply (run_processing_low_disk Demo.MAX_QUEUE_SIZE Demo.REQUEST_TIMEOUT
           Demo.MIN_DISK_MB Demo.disk_low).
  vm_compute. reflexivity.
Defined.

Lemma error_rate_spec_witness :
  error_rate Qred Metrics_new = Ok 0%Q /\
  error_rate Qred Demo.some_errors = Ok (Qred (inject_Z 1 / inject_Z 4))%Q.
Proof.
  split.
  - apply (proj1 (error_rate_spec Qred Metrics_new)). reflexivity.
  - apply (proj2 (error_rate_spec Qred Demo.some_errors)). simpl. lia.
Defined.

Lemma invalid_upload_refused_witness :
  demo_handler (RemoveBackground [] Demo.disk_ok Demo.clock) Demo.running =
    Done Demo.running (Raise (HTTPException 400 EmptyFile)) /\
  handler Demo.MAX_QUEUE_SIZE Demo.REQUEST_TIMEOUT 3 Demo.MIN_DISK_MB
    Demo.Image Demo.Image_open_verified Demo.Image_save_png
    Demo.remove_background Demo.remove_background_pil Demo.process_image
    Demo.render_template
    (ProcessFull Demo.png "FFFFFF" (1#10)%Q true 1200 1200
       "usedcameragear.com" 50 20 Demo.disk_ok Demo.clock) Demo.running =
    Done Demo.running (Raise (HTTPException 413 (ImageTooLarge 4 3))) /\
  demo_handler (Process Demo.corrupt "FFFFFF" (1#10)%Q true 1200 1200
                  Demo.disk_ok Demo.clock) Demo.running =
    Done Demo.running
      (Raise (HTTPException 400
                (InvalidImage
                   (Exception "UnidentifiedImageError"
                      "cannot identify image file")))).
Proof.
  split; [|split].
  - apply (proj1 (invalid_upload_refused Demo.MAX_QUEUE_SIZE
                    Demo.REQUEST_TIMEOUT Demo.MAX_IMAGE_SIZE Demo.MIN_DISK_MB
                    Demo.Image Demo.Image_open_verified Demo.Image_save_png
                    Demo.remove_background Demo.remove_background_pil
                    Demo.process_image Demo.render_template
                    (RemoveBackground [] Demo.disk_ok Demo.clock)
                    Demo.running)).
    reflexivity.
  - apply (proj1 (proj2 (invalid_upload_refused Demo.MAX_QUEUE_SIZE
                    Demo.REQUEST_TIMEOUT 3 Demo.MIN_DISK_MB
                    Demo.Image Demo.Image_open_verified Demo.Image_save_png
                    Demo.remove_background Demo.remove_background_pil
                    Demo.process_image Demo.render_template
                    (ProcessFull Demo.png "FFFFFF" (1#10)%Q true 1200 1200
                       "usedcameragear.com" 50 20 Demo.disk_ok Demo.clock)
                    Demo.running))); simpl; lia.
  - apply (proj2 (proj2 (invalid_upload_refused Demo.MAX_QUEUE_SIZE
                    Demo.REQUEST_TIMEOUT Demo.MAX_IMAGE_SIZE Demo.MIN_DISK_MB
                    Demo.Image Demo.Image_open_verified Demo.Image_save_png
                    Demo.remove_background Demo.remove_background_pil
                    Demo.process_image Demo.render_template
                    (Process Demo.corrupt "FFFFFF" (1#10)%Q true 1200 1200
                       Demo.disk_ok Demo.clock)
                    Demo.running))).
    + simpl. lia.
    + vm_compute. discriminate.
    + reflexivity.
    + reflexivity.
Defined.

(** C4: with [_shutdown_event] set, a request is still admitted and served
    to a successful response. *)
Lemma served_while_draining :
  ~ (forall req s' r,
       run_alone false (demo_handler req Demo.draining) = Some (s', r) ->
       exists e, r = Raise e).
Proof.
  intros H.
  edestruct (H (RemoveBackground Demo.png Demo.disk_ok Demo.clock)) as [e He];
    [vm_compute; reflexivity|discriminate].
Qed.

(** C5: when the first stage raises, no duration is recorded for it. *)
Lemma failed_stage_not_timed :
  ~ (forall pil_img : Demo.Image,
       stage_times
         (metrics
            (fst (process_full_do Demo.Image Demo.Image_save_png
                    Demo.remove_background_pil Demo.process_image
                    Demo.render_template pil_img "FFFFFF" (1#10)%Q true 1200
                    1200 "usedcameragear.com" 50 20 Demo.clock Demo.running)))
         !! "bg_removal" =
       Some (deque_append (Demo.clock 1 - Demo.clock 0)%Q [])).
Proof.
  intros H. specialize (H Demo.failing). vm_compute in H. discriminate.
Qed.

Lemma stage_timing_recorded_on_return_witness :
  (let s' :=
     fst (process_full_do Demo.Image Demo.Image_save_png
            Demo.remove_background_pil Demo.process_image Demo.render_template
            Demo.png "ZZZZZZ" (1#10)%Q true 1200 1200 "usedcameragear.com" 50
            20 Demo.clock Demo.running) in
   stage_times (metrics s') !! "bg_removal" =
     Some (deque_append (Demo.clock 1 - Demo.clock 0)%Q []) /\
   stage_times (metrics s') !! "processing" = Some [] /\
   stage_times (metrics s') !! "template" = Some [] /\
   processing_times (metrics s') = []) /\
  (let s' :=
     fst (process_do Demo.Image Demo.Image_save_png Demo.remove_background_pil
            Demo.process_image Demo.png "FFFFFF" (1#10)%Q true 1200 1200
            Demo.clock Demo.running) in
   stage_times (metrics s') !! "bg_removal" =
     Some (deque_append (Demo.clock 1 - Demo.clock 0)%Q []) /\
   stage_times (metrics s') !! "processing" =
     Some (deque_append (Demo.clock 2 - Demo.clock 1)%Q []) /\
   processing_times (metrics s') =
     deque_append (Demo.clock 2 - Demo.clock 0)%Q []).
Proof.
  split.
  - exact (proj1 (stage_timing_recorded_on_return Demo.Image
                    Demo.Image_save_png Demo.remove_background_pil
                    Demo.process_image Demo.render_template Demo.png "ZZZZZZ"
                    (1#10)%Q true 1200 1200 "usedcameragear.com" 50 20
                    Demo.clock Demo.running [] [] []
                    eq_refl eq_refl eq_refl)).
  - exact (proj2 (stage_timing_recorded_on_return Demo.Image
                    Demo.Image_save_png Demo.remove_background_pil
                    Demo.process_image Demo.render_template Demo.png "FFFFFF"
                    (1#10)%Q true 1200 1200 "usedcameragear.com" 50 20
                    Demo.clock Demo.running [] [] []
                    eq_refl eq_refl eq_refl)).
Defined.



Lemma counters_only_grow_witness :
  counters_le Demo.running (globals (demo_arrival Demo.png)) /\
  (exists g1 k s1 k2 s3 r,
     demo_run_processing Demo.disk_ok
       (remove_bg_do Demo.remove_background Demo.hanging Demo.clock)
       Demo.running = Acquire g1 k /\
     total_requests (metrics g1) = 1 /\
     k (Ok tt) (add_semaphore (-1) g1) =
       Execute s1 (remove_bg_do Demo.remove_background Demo.hanging Demo.clock)
         k2 /\
     k2 (Raise TimeoutError) s1 = Done s3 r /\
     total_timeouts (metrics s3) = total_timeouts (metrics s1) + 1 /\
     total_errors (metrics s3) = total_errors (metrics s1) + 1).
Proof.
  destruct (counters_only_grow Demo.MAX_CONCURRENT Demo.MAX_QUEUE_SIZE
              Demo.REQUEST_TIMEOUT Demo.MAX_IMAGE_SIZE Demo.MIN_DISK_MB
              Demo.Image Demo.Image_open_verified Demo.Image_save_png
              Demo.remove_background Demo.remove_background_pil
              Demo.process_image Demo.render_template) as [Hcall Hstep].
  split.
  - apply (Hstep (start Demo.running)).
    + exists Demo.running. split; [reflexivity|apply rtc_refl].
    + apply (step_request _ _ _ _ _ _ _ _ _ _ _ (start Demo.running)
               (RemoveBackground Demo.png Demo.disk_ok Demo.clock)).
      apply lands_advance.
  - assert (Hrun : exists g1 k,
      demo_run_processing Demo.disk_ok
        (remove_bg_do Demo.remove_background Demo.hanging Demo.clock)
        Demo.running = Acquire g1 k).
    { eexists _, _. lazy. reflexivity. }
    destruct Hrun as (g1 & k & Hrun). exists g1, k.
    destruct (Hcall _ _ _ _ _ Hrun) as (Hreq & Hk).
    destruct (Hk (add_semaphore (-1) g1)) as (s1 & k2 & E1 & Htimeout & _).
    destruct (Htimeout s1) as (s3 & r & E3 & Ht & He & _).
    exists s1, k2, s3, r. repeat split; assumption.
Defined.

(** ** Further properties on the sample deployment *)

Abbreviation demo_apply thm :=
  (thm Demo.MAX_CONCURRENT Demo.MAX_QUEUE_SIZE Demo.REQUEST_TIMEOUT
     Demo.MAX_IMAGE_SIZE Demo.MIN_DISK_MB Demo.Image Demo.Image_open_verified
     Demo.Image_save_png Demo.remove_background Demo.remove_background_pil
     Demo.process_image Demo.render_template) (only parsing).

(** The sample deployment after the shutdown signal. *)
Abbreviation demo_signalled :=
  {| globals := _handle_shutdown Demo.running; tasks := [];
     background := [] |} (only parsing).

Lemma demo_signalled_reachable : demo_reachable demo_signalled.
Proof.
  exists Demo.running. split; [reflexivity|].
  eapply rtc_l; [|apply rtc_refl].
  apply (step_shutdown _ _ _ _ _ _ _ _ _ _ _ (start Demo.running)).
Defined.

Lemma stage_deque_always_found_witness :
  snd (stage_times_append "processing" (1 # 2)
         (globals (demo_arrival Demo.png))) = Returns tt.
Proof.
  apply (demo_apply stage_deque_always_found).
  - apply demo_arrival_reachable.
  - vm_compute. auto.
Defined.

(** The sample deployment after [n] requests for [/remove-background]
    were served one after the other. *)
Abbreviation demo_served n :=
  (Nat.iter n
     (serve Demo.MAX_QUEUE_SIZE Demo.REQUEST_TIMEOUT Demo.MAX_IMAGE_SIZE
        Demo.MIN_DISK_MB Demo.Image Demo.Image_open_verified
        Demo.Image_save_png Demo.remove_background Demo.remove_background_pil
        Demo.process_image Demo.render_template
        (RemoveBackground Demo.png Demo.disk_ok Demo.clock))
     (start Demo.running)) (only parsing).

Lemma demo_served_reachable n : demo_reachable (demo_served n).
Proof.
  apply serve_many_reachable. exists Demo.running.
  split; [reflexivity|apply rtc_refl].
Defined.

Lemma timing_deques_bounded_witness :
  let m := metrics (globals (demo_served 1001%nat)) in
  total_success m = 1001 /\
  Z.of_nat (length (processing_times m)) = 1000 /\
  Z.of_nat (length (processing_times m)) <= 1000 /\
  exists d, stage_times m !! "bg_removal" = Some d /\
            Z.of_nat (length d) = 1000 /\ Z.of_nat (length d) <= 1000.
Proof.
  intros m.
  destruct (demo_apply timing_deques_bounded (demo_served 1001%nat)
              (demo_served_reachable 1001)) as [Hpt Hst].
  split; [vm_compute; reflexivity|]. split; [vm_compute; reflexivity|].
  split; [exact Hpt|].
  assert (E : exists d, stage_times m !! "bg_removal" = Some d /\
                        Z.of_nat (length d) = 1000)
    by (eexists; split; vm_compute; reflexivity).
  destruct E as (d & E & Hd). exists d.
  split; [exact E|]. split; [exact Hd|exact (Hst "bg_removal" d E)].
Defined.

Lemma requests_accounted_witness :
  let m := metrics (globals (demo_arrival Demo.png)) in
  total_requests m = 1 /\ current_processing m = 1 /\
  total_success m + total_errors m + total_rejected m
    + current_queued m + current_processing m <= total_requests m /\
  total_timeouts m <= total_errors m.
Proof.
  intros m. split; [reflexivity|]. split; [reflexivity|].
  apply (demo_apply requests_accounted (demo_arrival Demo.png)).
  apply demo_arrival_reachable.
Defined.

Lemma error_rate_is_proportion_witness :
  exists q,
    error_rate Qred (metrics (globals (demo_arrival Demo.png))) = Ok q /\
    (0 <= q /\ q <= 1)%Q.
Proof.
  apply (demo_apply error_rate_is_proportion Qred (demo_arrival Demo.png)).
  - intros q. rewrite (Qred_correct q). tauto.
  - apply demo_arrival_reachable.
Defined.

Lemma shutting_down_is_final_witness :
  let c := demo_handler (RemoveBackground Demo.png Demo.disk_ok Demo.clock)
             (_handle_shutdown Demo.running) in
  health_status (_handle_shutdown Demo.running) = "shutting_down" /\
  health_status (fst (advance c)) = "shutting_down".
Proof.
  intros c. split; [reflexivity|].
  apply (demo_apply shutting_down_is_final demo_signalled
           {| globals := fst (advance c); tasks := [] ++ [snd (advance c)];
              background := [] |}).
  - apply demo_signalled_reachable.
  - eapply rtc_l; [|apply rtc_refl].
    apply (step_request _ _ _ _ _ _ _ _ _ _ _ demo_signalled
             (RemoveBackground Demo.png Demo.disk_ok Demo.clock)).
    apply lands_advance.
  - reflexivity.
Defined.

Lemma quiescent_all_permits_free_witness :
  let w := demo_served 3%nat in
  quiescent w /\
  total_success (metrics (globals w)) = 3 /\
  _semaphore (globals w) = 2 /\
  current_processing (metrics (globals w)) = 0 /\
  current_queued (metrics (globals w)) = 0.
Proof.
  intros w.
  assert (Hq : quiescent w).
  { repeat (constructor; [eexists; vm_compute; reflexivity|]). constructor. }
  split; [exact Hq|]. split; [vm_compute; reflexivity|].
  apply (demo_apply quiescent_all_permits_free w);
    [apply demo_served_reachable|exact Hq].
Defined.

(** The service with the second set of stand-ins. *)
Abbreviation steady_apply thm :=
  (thm Demo.MAX_QUEUE_SIZE Demo.REQUEST_TIMEOUT
     Demo.MAX_IMAGE_SIZE Demo.MIN_DISK_MB Demo.Image Demo.Image_open_verified
     Demo.Image_save_png Steady.remove_background Steady.remove_background_pil
     Demo.process_image Demo.render_template) (only parsing).

Abbreviation steady_handler :=
  (handler Demo.MAX_QUEUE_SIZE Demo.REQUEST_TIMEOUT Demo.MAX_IMAGE_SIZE
     Demo.MIN_DISK_MB Demo.Image Demo.Image_open_verified Demo.Image_save_png
     Steady.remove_background Steady.remove_background_pil Demo.process_image
     Demo.render_template) (only parsing).




Lemma disk_guard_threshold_witness :
  _check_disk_space Demo.MIN_DISK_MB (Ok (500 * 1048576)) Demo.running
    = Done Demo.running (Ok tt) /\
  verdict_of
    (_check_disk_space Demo.MIN_DISK_MB (Ok (500 * 1048576 - 1)) Demo.running)
    = Raised (HTTPException 503
                (LowDiskSpace
                   (inject_Z (500 * 1048576 - 1) / inject_Z (1024 * 1024))
                   500)).
Proof.
  split; [|reflexivity].
  apply (proj2 (disk_guard_threshold Demo.MIN_DISK_MB (500 * 1048576)
                  Demo.running ltac:(lia))).
  unfold Demo.MIN_DISK_MB. lia.
Defined.

Lemma disk_probe_failure_ignored_witness :
  demo_run_processing (Raise (Exception "OSError" "no such device"))
    (remove_bg_do Demo.remove_background Demo.png Demo.clock) Demo.running =
  demo_run_processing (Ok (500 * 1048576))
    (remove_bg_do Demo.remove_background Demo.png Demo.clock) Demo.running.
Proof.
  apply disk_probe_failure_ignored; [exact I|].
  unfold Demo.MIN_DISK_MB. lia.
Defined.

Lemma process_full_pipeline_witness :
  exists g',
    run_alone false
      (demo_handler
         (ProcessFull Demo.png "FFFFFF" (1 # 10) true 1200 1200 "Canon AE-1"
            80 36 Demo.disk_ok Demo.clock) Demo.running)
    = Some (g', Ok {| content := Demo.png; media_type := "image/png" |}) /\
    total_requests (metrics g') = 1 /\ total_success (metrics g') = 1 /\
    _semaphore g' = 2.
Proof.
  destruct (process_full_pipeline Demo.MAX_QUEUE_SIZE Demo.REQUEST_TIMEOUT
              Demo.MAX_IMAGE_SIZE Demo.MIN_DISK_MB Demo.Image
              Demo.Image_open_verified Demo.Image_save_png
              Demo.remove_background Demo.remove_background_pil
              Demo.process_image Demo.render_template Demo.png Demo.png "FFFFFF"
              (1 # 10)%Q true 1200 1200 "Canon AE-1" 80 36
              (10 * 1024 * 1024 * 1024) Demo.clock Demo.running
              Demo.png Demo.png Demo.png Demo.png [] [] [])
    as (g' & E & Hr & Hs & _ & Hp & _);
    try reflexivity; try discriminate; try (vm_compute; congruence).
  exists g'. split; [exact E|]. repeat split; assumption.
Defined.

(** ** The modules around the server *)



(** X15.  Once [_get_session] has returned a session, every later call
    returns that same session and changes nothing, whatever the file
    system, the download or the runtime would answer then: the model is
    fetched and loaded once. *)
Theorem session_loaded_once {Session : Type} MODEL_DIR makedirs retrieve
    (InferenceSession : string -> res Session) s s1 session :
  bg_removal._get_session MODEL_DIR makedirs retrieve InferenceSession s
    = (s1, Ok session) ->
  forall makedirs' retrieve' InferenceSession',
    bg_removal._get_session MODEL_DIR makedirs' retrieve' InferenceSession' s1
      = (s1, Ok session).
Proof.
  unfold bg_removal._get_session, bg_removal._get_model_path.
  intros H makedirs' retrieve' InferenceSession'.
  destruct (bg_removal._session s) as [session0|] eqn:E.
  - injection H as <- <-. rewrite E. reflexivity.
  - destruct (bg_removal.model_cached s);
      [|destruct makedirs; [destruct retrieve|]];
      try (destruct (InferenceSession (bg_removal.model_path MODEL_DIR)));
      try discriminate; injection H as <- <-; reflexivity.
Qed.

Lemma session_loaded_once_witness :
  let start := {| bg_removal._session := None;
                  bg_removal.model_cached := false |} in
  let loaded := {| bg_removal._session := Some 7%nat;
                   bg_removal.model_cached := true |} in
  bg_removal._get_session "/root/.u2net" (Ok tt) (Ok tt)
    (fun _ => Ok 7%nat) start
    = (loaded, Ok 7%nat) /\
  bg_removal._get_session "/root/.u2net" (Ok tt)
    (Raise (Exception "HTTPError" "404")) (fun _ => Ok 8%nat) loaded
    = (loaded, Ok 7%nat).
Proof.
  intros start loaded. split; [reflexivity|].
  apply (session_loaded_once "/root/.u2net" (Ok tt) (Ok tt)
           (fun _ => Ok 7%nat) start).
  reflexivity.
Defined.

(** X16.  When loading a font fails only with ordinary exceptions,
    [_get_font] returns the first font of its list, in order, whose file
    exists and loads, and the default font when there is none. *)
Theorem get_font_first_usable {Font : Type} (path_exists : string -> bool)
    (truetype : string -> Z -> res Font) (load_default : res Font) (size : Z) :
  (forall fp e, truetype fp size = Raise e -> is_Exception e = true) ->
  template_renderer._get_font path_exists truetype load_default size =
  match
    List.find
      (fun fp => path_exists fp &&
                 match truetype fp size with Ok _ => true | Raise _ => false end)
      template_renderer.font_paths
  with
  | Some fp => truetype fp size
  | None => load_default
  end.
Proof.
  intros Hexc. unfold template_renderer._get_font.
  induction template_renderer.font_paths as [|fp rest IH]; cbn; [reflexivity|].
  destruct (path_exists fp); cbn; [|exact IH].
  destruct (truetype fp size) as [font|e] eqn:E; cbn; [symmetry; exact E|].
  rewrite (Hexc fp e E). exact IH.
Qed.

Lemma get_font_first_usable_witness :
  let path_exists fp :=
    String.eqb fp "/System/Library/Fonts/SFNSText.ttf"
    || String.eqb fp "/usr/share/fonts/truetype/dejavu/DejaVuSans.ttf" in
  let truetype fp (size : Z) :=
    if String.eqb fp "/System/Library/Fonts/SFNSText.ttf"
    then Raise (Exception "OSError" "cannot open resource")
    else Ok (fp, size) in
  template_renderer._get_font path_exists truetype
    (Ok ("default", 10)) 20
  = Ok ("/usr/share/fonts/truetype/dejavu/DejaVuSans.ttf", 20).
Proof.
  intros path_exists truetype.
  rewrite (get_font_first_usable path_exists truetype); [reflexivity|].
  intros fp e. unfold truetype.
  destruct (String.eqb fp "/System/Library/Fonts/SFNSText.ttf");
    [intros [= <-]; reflexivity|discriminate].
Defined.

(** X17.  [process_image] centres the foreground: when it is not larger
    than the canvas, it lies inside the canvas, and the margin on the
    right (below) equals the margin on the left (above) or exceeds it by
    one pixel. *)
Theorem foreground_centred target_w target_h fg_width fg_height :
  0 <= fg_width <= target_w -> 0 <= fg_height <= target_h ->
  let left := image_processor.paste_x target_w fg_width in
  let top := image_processor.paste_y target_h fg_height in
  let right := target_w - (left + fg_width) in
  let bottom := target_h - (top + fg_height) in
  0 <= left <= right /\ right <= left + 1 /\
  0 <= top <= bottom /\ bottom <= top + 1.
Proof.
  intros Hw Hh. unfold image_processor.paste_x, image_processor.paste_y. cbn.
  Z.div_mod_to_equations. lia.
Qed.

Lemma foreground_centred_witness :
  image_processor.paste_x 1200 959 = 120 /\
  image_processor.paste_y 1200 640 = 280 /\
  0 <= 120 <= 1200 - (120 + 959) /\ 1200 - (120 + 959) <= 120 + 1.
Proof.
  destruct (foreground_centred 1200 1200 959 640) as (H1 & H2 & _); [lia|lia|].
  split; [reflexivity|]. split; [reflexivity|]. split; assumption.
Defined.

(** X18.  [render_template] centres the drawing origin, not the ink: the
    ink of the text has the measured size and lies off the centre of the
    bar by the offset [(x0, y0)] of the measured box.  Up to one pixel its
    right margin is the left one less [2 * x0] and the room below it in
    the bar is the room above it less [2 * y0]; so it is centred when the
    box starts at the origin, and it is inside the bar and the image when
    moreover the text is not taller than the bar nor wider than the
    image. *)
Theorem text_offset_by_bbox w h bar_height x0 y0 x1 y1 :
  let '(l, t, r, b) :=
    template_renderer.ink_box w h bar_height (x0, y0, x1, y1) in
  let left := l in
  let right := w - r in
  let above := t - template_renderer.bar_top h bar_height in
  let below := h - b in
  r - l = x1 - x0 /\ b - t = y1 - y0 /\
  left - 2 * x0 <= right <= left - 2 * x0 + 1 /\
  above - 2 * y0 <= below <= above - 2 * y0 + 1 /\
  (x0 = 0 -> y0 = 0 -> 0 <= x1 <= w -> 0 <= y1 <= bar_height ->
   0 <= left <= right /\ 0 <= above <= below).
Proof.
  unfold template_renderer.ink_box, template_renderer.text_x,
    template_renderer.text_y, template_renderer.text_w,
    template_renderer.text_h, template_renderer.bar_top. cbn.
  Z.div_mod_to_equations. lia.
Qed.

(** A text whose measured box starts four pixels below the origin is
    drawn four pixels below the centre of the bar. *)
Lemma text_offset_by_bbox_witness :
  template_renderer.ink_box 1200 1200 50 (0, 4, 181, 19)
    = (509, 1171, 690, 1186) /\
  (1171 - template_renderer.bar_top 1200 50) - 2 * 4
    <= 1200 - 1186
    <= (1171 - template_renderer.bar_top 1200 50) - 2 * 4 + 1.
Proof.
  pose proof (text_offset_by_bbox 1200 1200 50 0 4 181 19) as H.
  cbv beta iota zeta delta [template_renderer.ink_box template_renderer.text_x
    template_renderer.text_y template_renderer.text_w
    template_renderer.text_h] in H.
  split; [reflexivity|]. apply H.
Defined.

Lemma tail_drop {A : Type} (k : nat) (l : list A) :
  tail (drop k l) = drop (S k) l.
Proof.
  revert l. induction k as [|k IH]; intros [|a l]; try reflexivity.
  apply (IH l).
Qed.

(** X19.  Samples appended one after the other to an empty timing deque
    leave the last 1000 of them, oldest first. *)
Theorem deque_keeps_latest (xs : list Q) :
  foldl (fun d x => deque_append x d) [] xs =
  drop (length xs - Z.to_nat maxlen) xs.
Proof.
  induction xs as [|x xs IH] using rev_ind; [reflexivity|].
  rewrite foldl_app. cbn [foldl]. rewrite IH. unfold deque_append.
  rewrite length_drop, length_app. cbn [length].
  change (Z.to_nat maxlen) with 1000%nat. unfold maxlen.
  destruct (le_lt_dec 1000 (length xs)) as [Hge|Hlt].
  - destruct (Z.ltb_spec
                (Z.of_nat (length xs - (length xs - 1000))%nat) 1000)
      as [Hlt|_]; [lia|].
    rewrite tail_drop.
    replace (length xs + 1 - 1000)%nat with (S (length xs - 1000)) by lia.
    rewrite drop_app_le by lia. reflexivity.
  - destruct (Z.ltb_spec
                (Z.of_nat (length xs - (length xs - 1000))%nat) 1000)
      as [_|Hge]; [|lia].
    replace (length xs - 1000)%nat with 0%nat by lia.
    replace (length xs + 1 - 1000)%nat with 0%nat by lia. reflexivity.
Qed.

(** With both permits free the semaphore may still park the newcomer. *)
Lemma arrival_admitted_witness :
  exists g' k,
    lands (demo_handler (RemoveBackground Demo.png Demo.disk_ok Demo.clock)
             Demo.running) g' (Waiting k) /\
    total_requests (metrics g') = 0 + 1 /\
    current_queued (metrics g') = 0 + 1 /\
    _semaphore g' = 2.
Proof.
  assert (E : exists g1 k,
    demo_handler (RemoveBackground Demo.png Demo.disk_ok Demo.clock)
      Demo.running = Acquire g1 k)
    by (eexists _, _; lazy; reflexivity).
  destruct E as (g1 & k & E). exists g1, k.
  assert (Hl : lands (demo_handler
                        (RemoveBackground Demo.png Demo.disk_ok Demo.clock)
                        Demo.running) g1 (Waiting k))
    by (rewrite E; apply lands_park).
  split; [exact Hl|].
  destruct (arrival_admitted Demo.MAX_QUEUE_SIZE Demo.REQUEST_TIMEOUT
              Demo.MAX_IMAGE_SIZE Demo.MIN_DISK_MB Demo.Image
              Demo.Image_open_verified Demo.Image_save_png
              Demo.remove_background Demo.remove_background_pil
              Demo.process_image Demo.render_template
              (RemoveBackground Demo.png Demo.disk_ok Demo.clock)
              Demo.running Demo.png (10 * 1024 * 1024 * 1024))
    as (_ & H);
    try reflexivity; try discriminate; try (vm_compute; congruence).
  destruct (H g1 (Waiting k) Hl)
    as (Hr & _ & [((j & k' & Ht) & _)|(_ & Hs & _ & Hq)]);
    [discriminate Ht|].
  split; [exact Hr|]. split; [exact Hq|exact Hs].
Defined.

(** Stand-ins for the float operations: the exact sum, and the quotient
    in lowest terms. *)
Abbreviation exact_sum := (foldr Qplus 0%Q) (only parsing).

Lemma avg_time_never_faults_witness :
  let m := set_processing_times [1 # 4; 3 # 4; 1 # 2]%Q Metrics_new in
  avg_time exact_sum Qred Metrics_new = Ok 0%Q /\
  avg_time exact_sum Qred m = Ok (1 # 2)%Q.
Proof.
  intros m. split.
  - apply (proj1 (avg_time_never_faults exact_sum Qred Metrics_new)).
    reflexivity.
  - apply (proj2 (avg_time_never_faults exact_sum Qred m)). discriminate.
Defined.

Lemma avg_stage_never_faults_witness :
  let m :=
    set_stage_times (<["template" := [1 # 4; 3 # 4]%Q]> (stage_times Metrics_new))
      Metrics_new in
  avg_stage exact_sum Qred m "thumbnail" = Ok 0%Q /\
  avg_stage exact_sum Qred m "processing" = Ok 0%Q /\
  avg_stage exact_sum Qred m "template" = Ok (1 # 2)%Q.
Proof.
  intros m.
  destruct (avg_stage_never_faults exact_sum Qred m "thumbnail") as (H1 & _).
  destruct (avg_stage_never_faults exact_sum Qred m "processing")
    as (_ & H2 & _).
  destruct (avg_stage_never_faults exact_sum Qred m "template")
    as (_ & _ & H3).
  split; [apply H1; reflexivity|]. split; [apply H2; reflexivity|].
  apply (H3 [1 # 4; 3 # 4]%Q); [reflexivity|discriminate].
Defined.


Lemma deque_keeps_latest_witness :
  foldl (fun d x => deque_append x d) [] (replicate 1000 (1 # 1)%Q ++ [2 # 1]%Q)
  = replicate 999 (1 # 1)%Q ++ [2 # 1]%Q.
Proof.
  rewrite (deque_keeps_latest (replicate 1000 (1 # 1)%Q ++ [2 # 1]%Q)).
  vm_compute. reflexivity.
Defined.
